(** * Gold/silver loan ledger (backend/server.py): accrual, serials, payments

    A shallow embedding of the request handlers of [backend/server.py] and
    of the record classes they use, followed by the properties established
    about them.

    Python values are modelled as follows.
    - [float] is IEEE-754 binary64, here Rocq's primitive [float]; [+], [-],
      [*] and [/] are the correctly rounded operations on both sides.
    - [int] is [Z].
    - [str] is [string]; the text handled here is ASCII (see [is_ascii]).
    - [datetime] is an instant in microseconds together with the flag that
      tells an offset-aware value from a naive one.
    - a raised exception is a value of [Exn].  *)

From Stdlib Require Import ZArith List Sorted Permutation String Ascii Bool Lia.
From Stdlib Require Import Floats DecimalString DecimalPos DecimalZ.
Import ListNotations.

Set Warnings "-inexact-float".

Local Open Scope string_scope.
Local Open Scope list_scope.
Local Open Scope Z_scope.

(* ===================================================================== *)
(** * Python primitives *)
(* ===================================================================== *)

Module Py.

(** Exceptions that reach the caller of a handler. *)
Inductive Exn : Type :=
| HTTPException (status_code : Z) (detail : string)
| TypeError
| OverflowError.

Definition Result (A : Type) : Type := (Exn + A)%type.
Definition Ok {A : Type} (a : A) : Result A := inr a.
Definition Err {A : Type} (e : Exn) : Result A := inl e.

(** ** Floats *)

Definition prec : Z := 53.
Definition emax : Z := 1024.

(** The exact value of an integer as an unrounded binary number. *)
Definition Z2SF (z : Z) : spec_float :=
  match z with
  | Z0 => S754_zero false
  | Zpos p => S754_finite false p 0
  | Zneg p => S754_finite true p 0
  end.

(** [a / b] on two [int]s: the quotient rounded once to the nearest float
    ([b] is never 0 where the handlers divide). *)
Definition int_truediv (a b : Z) : float :=
  SF2Prim (SFdiv prec emax (Z2SF a) (Z2SF b)).

(** Nearest integer to [n / d] for [0 < d], a tie going to the even one. *)
Definition round_half_even (n d : Z) : Z :=
  let q := n / d in
  match (2 * (n mod d)) ?= d with
  | Lt => q
  | Gt => q + 1
  | Eq => if Z.even q then q else q + 1
  end.

(** The integer [n] as a binary number that keeps the sign [s] when [n] is 0. *)
Definition signed_SF (s : bool) (n : Z) : spec_float :=
  match n with
  | Z0 => S754_zero s
  | Zpos p => S754_finite false p 0
  | Zneg p => S754_finite true p 0
  end.

(** [round(x, ndigits)] for a float [x] and [0 <= ndigits]: CPython prints
    the exact binary value of [x] with [ndigits] decimals, correctly rounded
    (a tie between two decimals goes to the even one), and reads the decimal
    back as the nearest float.  Infinities, NaN and zeros are returned as
    they are. *)
Definition round (x : float) (ndigits : Z) : float :=
  match Prim2SF x with
  | S754_finite s m e =>
      let num := if s then Zneg m else Zpos m in
      let scale := 10 ^ ndigits in
      let n := if 0 <=? e then num * 2 ^ e * scale
               else round_half_even (num * scale) (2 ^ (- e)) in
      SF2Prim (SFdiv prec emax (signed_SF s n) (Z2SF scale))
  | _ => x
  end.

(** [x ** y] on two floats, for a finite base other than 0 and 1 and a finite
    exponent other than 0 (the only use in the handlers): CPython calls the C
    library's [pow] and raises [OverflowError] when the result is infinite. *)
Definition float_pow (pow : float -> float -> float) (x y : float) : Result float :=
  let r := pow x y in
  if PrimFloat.is_infinity r then Err OverflowError else Ok r.

(** A reference [pow]: the exact power rounded once, for an exponent that is
    a non-negative whole number; NaN elsewhere. The handlers take [pow] as a
    parameter; this instance serves runs that need a concrete one. *)
Definition pow_whole (x y : float) : float :=
  match Prim2SF x, Prim2SF y with
  | S754_finite sx mx ex, S754_finite false my ey =>
      if 0 <=? ey then
        let n := Zpos my * 2 ^ ey in
        let num := if sx then Zneg mx else Zpos mx in
        SF2Prim (binary_normalize prec emax (num ^ n) (ex * n) false)
      else if Z.eqb ((Zpos my) mod 2 ^ (- ey)) 0 then
        let n := Zpos my / 2 ^ (- ey) in
        let num := if sx then Zneg mx else Zpos mx in
        SF2Prim (binary_normalize prec emax (num ^ n) (ex * n) false)
      else PrimFloat.nan
  | S754_finite _ _ _, S754_zero _ => PrimFloat.one
  | _, _ => PrimFloat.nan
  end.

(** ** datetime and timedelta *)

(** [instant]: microseconds on the time line (UTC for an aware value, wall
    clock for a naive one). *)
Record datetime : Type := mkDatetime {
  instant : Z;
  tzaware : bool
}.

(** [datetime.now(timezone.utc)] when the clock reads [t]. *)
Definition utc (t : Z) : datetime := {| instant := t; tzaware := true |}.

Definition microseconds_per_day : Z := 86400 * 1000000.

(** [a - b]: a [timedelta], in microseconds; mixing a naive and an aware
    value raises [TypeError]. *)
Definition datetime_sub (a b : datetime) : Result Z :=
  if Bool.eqb (tzaware a) (tzaware b)
  then Ok (instant a - instant b)
  else Err TypeError.

(** [td.days]: a [timedelta] is normalised with [0 <= seconds < 86400], so
    its day count is the floor. *)
Definition timedelta_days (td : Z) : Z := td / microseconds_per_day.

(** ** Strings and integers *)

Definition is_ascii (s : string) : bool :=
  forallb (fun c => (nat_of_ascii c <? 128)%nat) (list_ascii_of_string s).

(** Truth value of a [str]: false for the empty string only. *)
Definition truthy (s : string) : bool := negb (String.eqb s "").

(** [s[1:]]. *)
Definition slice_from_1 (s : string) : string :=
  match s with
  | EmptyString => EmptyString
  | String _ rest => rest
  end.

(** [str(n)] for an [int], as an f-string inserts it: decimal digits, with
    a leading minus sign for a negative number.  (Recent CPython versions
    refuse conversions of more than 4300 digits; numbers of that size are
    left out of the model.) *)
Definition str_of_int (n : Z) : string := NilZero.string_of_int (Z.to_int n).

(** Whitespace that [int()] skips around an ASCII numeral. *)
Definition is_space (c : ascii) : bool :=
  let n := nat_of_ascii c in
  ((n =? 32) || ((9 <=? n) && (n <=? 13)))%nat.

Definition digit_of (c : ascii) : option Z :=
  let n := nat_of_ascii c in
  if ((48 <=? n) && (n <=? 57))%nat then Some (Z.of_nat n - 48) else None.

Fixpoint lstrip (s : string) : string :=
  match s with
  | EmptyString => EmptyString
  | String c rest => if is_space c then lstrip rest else s
  end.

Fixpoint all_space (s : string) : bool :=
  match s with
  | EmptyString => true
  | String c rest => is_space c && all_space rest
  end.

(** The rest of a numeral after a digit: more digits, each possibly
    preceded by one underscore, then nothing but whitespace. *)
Fixpoint int_digits (acc : Z) (s : string) : option Z :=
  match s with
  | EmptyString => Some acc
  | String c rest =>
      match digit_of c with
      | Some d => int_digits (acc * 10 + d) rest
      | None =>
          if Ascii.eqb c "_" then
            match rest with
            | String c' rest' =>
                match digit_of c' with
                | Some d => int_digits (acc * 10 + d) rest'
                | None => None
                end
            | EmptyString => None
            end
          else if all_space s then Some acc else None
      end
  end.

Definition int_unsigned (s : string) : option Z :=
  match s with
  | String c rest =>
      match digit_of c with
      | Some d => int_digits d rest
      | None => None
      end
  | EmptyString => None
  end.

(** [int(s)] on an ASCII string [s]: [None] stands for the [ValueError] raised
    on text that is not a base-10 numeral.  (Numerals of more than 4300
    digits, which recent CPython versions refuse as well, are left out of
    the model, as for [str_of_int].) *)
Definition int_of_str (s : string) : option Z :=
  match lstrip s with
  | String c rest =>
      if Ascii.eqb c "+" then int_unsigned rest
      else if Ascii.eqb c "-" then option_map Z.opp (int_unsigned rest)
      else int_unsigned (String c rest)
  | EmptyString => None
  end.

End Py.

(* ===================================================================== *)
(** * Record classes (backend/server.py) *)
(* ===================================================================== *)

(** The classes are those [server.py] declares and its handlers
    instantiate. [models_update.py] declares richer ones (a purpose and a
    split on payments, the date of the last interest payment on loans) but
    is imported by nothing: of these only the loan's
    [last_interest_payment_date] is kept here, unset throughout since no
    handler writes it. A stored document and the object it was dumped from
    are the same record: the ISO-8601 text a date is stored as is read back
    to the date it was written from. *)

Module Item.
Record t : Type := mk {
  id : string;
  qty : Z;
  item_name : string;
  metal : string;
  weight : float;
  percentage : float;
  fine_weight : float;
  value : float
}.
End Item.

Module ItemCreate.
Record t : Type := mk {
  qty : Z;
  item_name : string;
  metal : string;
  weight : float;
  percentage : float;
  fine_weight : float;
  value : float
}.
End ItemCreate.

Module Loan.
Record t : Type := mk {
  id : string;
  serial_no : string;
  customer_id : string;
  customer_name : string;
  principal_amount : float;
  monthly_interest : float;
  loan_date : Py.datetime;
  last_interest_payment_date : option Py.datetime;
  status : string;
  items : list Item.t;
  created_at : Py.datetime
}.
End Loan.

Module LoanCreate.
Record t : Type := mk {
  customer_id : string;
  customer_name : string;
  principal_amount : float;
  monthly_interest : float;
  loan_date : Py.datetime;
  items : list ItemCreate.t
}.
End LoanCreate.

Module Payment.
Record t : Type := mk {
  id : string;
  loan_id : string;
  loan_serial_no : string;
  customer_name : string;
  amount : float;
  payment_date : Py.datetime;
  payment_type : string;
  notes : option string;
  created_at : Py.datetime
}.
End Payment.

Module PaymentCreate.
Record t : Type := mk {
  loan_id : string;
  amount : float;
  payment_date : Py.datetime;
  notes : option string
}.
End PaymentCreate.

(** The JSON body of [POST /payments] as a client may send it: the four
    keys [PaymentCreate] declares, and the purpose and split that
    [models_update.py] names. *)
Module PaymentBody.
Record t : Type := mk {
  loan_id : string;
  amount : float;
  payment_date : Py.datetime;
  notes : option string;
  transaction_type : option string;
  principal_paid : option float;
  interest_paid : option float
}.

(** The body read as a [PaymentCreate]: the class sets no [extra] policy,
    so the keys it does not declare are ignored. *)
Definition validate (body : t) : PaymentCreate.t :=
  {| PaymentCreate.loan_id := loan_id body;
     PaymentCreate.amount := amount body;
     PaymentCreate.payment_date := payment_date body;
     PaymentCreate.notes := notes body |}.

(** The same body with purpose and split left out. *)
Definition without_split (body : t) : t :=
  {| loan_id := loan_id body;
     amount := amount body;
     payment_date := payment_date body;
     notes := notes body;
     transaction_type := None;
     principal_paid := None;
     interest_paid := None |}.
End PaymentBody.

(** The dictionary [calculate_interest] returns. *)
Module InterestInfo.
Record t : Type := mk {
  principal : float;
  interest : float;
  total_amount : float;
  days : Z;
  interest_type : string
}.
End InterestInfo.

(* ===================================================================== *)
(** * The database and the coroutines that use it *)
(* ===================================================================== *)

Module Db.
Import Py.

(** The two collections the handlers below touch, each in insertion order. *)
Record Database : Type := mkDatabase {
  loans : list Loan.t;
  payments : list Payment.t
}.

Definition empty : Database := {| loans := []; payments := [] |}.

(** The awaited database calls. *)
Inductive Op : Type :=
| loans_find_one (id : string)
    (* db.loans.find_one({"id": id}, {"_id": 0}) *)
| loans_find_one_latest
    (* db.loans.find_one({}, {"_id": 0, "serial_no": 1}, sort=[("created_at", -1)]) *)
| loans_insert_one (doc : Loan.t)
| payments_insert_one (doc : Payment.t).

Definition Reply (op : Op) : Type :=
  match op with
  | loans_find_one _ => option Loan.t
  | loans_find_one_latest => option Loan.t
  | loans_insert_one _ => unit
  | payments_insert_one _ => unit
  end.

(** The document with the greatest [created_at]. The stored text of a
    creation time orders as its instant does; among equal times the
    database is free to pick, and the earliest inserted is picked here. *)
Fixpoint latest (ls : list Loan.t) : option Loan.t :=
  match ls with
  | [] => None
  | l :: rest =>
      match latest rest with
      | Some m =>
          if instant (Loan.created_at l) <? instant (Loan.created_at m)
          then Some m else Some l
      | None => Some l
      end
  end.

Definition find_by_id (id : string) (ls : list Loan.t) : option Loan.t :=
  find (fun l => String.eqb (Loan.id l) id) ls.

(** One database call, run to completion. *)
Definition exec (op : Op) (db : Database) : Database * Reply op :=
  match op return Database * Reply op with
  | loans_find_one id => (db, find_by_id id (loans db))
  | loans_find_one_latest => (db, latest (loans db))
  | loans_insert_one doc =>
      ({| loans := loans db ++ [doc]; payments := payments db |}, tt)
  | payments_insert_one doc =>
      ({| loans := loans db; payments := payments db ++ [doc] |}, tt)
  end.

(** An [async def] body: it returns, raises, or awaits a database call and
    goes on with the reply. Other coroutines may run while it waits. *)
Inductive Async (A : Type) : Type :=
| Return (a : A)
| Raise (e : Exn)
| Await (op : Op) (k : Reply op -> Async A).

Arguments Return {A} a.
Arguments Raise {A} e.
Arguments Await {A} op k.

Fixpoint bind {A B : Type} (m : Async A) (f : A -> Async B) : Async B :=
  match m with
  | Return a => f a
  | Raise e => Raise e
  | Await op k => Await op (fun r => bind (k r) f)
  end.

Definition await (op : Op) : Async (Reply op) := Await op Return.

(** A coroutine run alone, from its first step to its last. *)
Fixpoint run {A : Type} (m : Async A) (db : Database) : Database * Result A :=
  match m with
  | Return a => (db, Ok a)
  | Raise e => (db, Err e)
  | Await op k => let (db', r) := exec op db in run (k r) db'
  end.

(** Calls served one after another: each runs alone on the state the
    previous one left. *)
Fixpoint run_all {A : Type} (ms : list (Async A)) (db : Database)
  : Database * list (Result A) :=
  match ms with
  | [] => (db, [])
  | m :: rest =>
      let (db1, r) := run m db in
      let (db2, rs) := run_all rest db1 in
      (db2, r :: rs)
  end.

(** ** Calls in flight together *)

(** The event loop holds the coroutines in flight and resumes one of them
    at a time; an awaited database call is atomic. *)
Definition Pool (A : Type) : Type := list (Async A).

(** One step of a coroutine: its pending call is served and it goes on to
    its next [await], or to its end. A finished coroutine stays as it is. *)
Definition advance {A : Type} (m : Async A) (db : Database)
  : Database * Async A :=
  match m with
  | Await op k => let (db', r) := exec op db in (db', k r)
  | _ => (db, m)
  end.

Fixpoint resume {A : Type} (i : nat) (pool : Pool A) (db : Database)
  : Database * Pool A :=
  match pool, i with
  | [], _ => (db, [])
  | m :: rest, O => let (db', m') := advance m db in (db', m' :: rest)
  | m :: rest, S j => let (db', rest') := resume j rest db in (db', m :: rest')
  end.

(** A schedule names, step by step, the coroutine that is resumed. *)
Fixpoint run_schedule {A : Type} (schedule : list nat) (pool : Pool A)
    (db : Database) : Database * Pool A :=
  match schedule with
  | [] => (db, pool)
  | i :: later => let (db', pool') := resume i pool db in run_schedule later pool' db'
  end.

(** The schedule that runs [n] coroutines of [steps] awaits each one after
    another, none overlapping the next. *)
Definition serial_schedule (steps n : nat) : list nat :=
  flat_map (fun i => repeat i steps) (seq 0 n).

End Db.

Module AsyncNotation.
Notation "x <- m ;; k" := (Db.bind m (fun x => k))
  (at level 61, m at next level, right associativity).
End AsyncNotation.

(* ===================================================================== *)
(** * The handlers (backend/server.py) *)
(* ===================================================================== *)

(** Authentication ([Depends(get_current_user)]) is decided before a body
    runs and is left out. What a handler draws from its environment is an
    argument: [now] is the clock reading of [datetime.now(timezone.utc)],
    [uuid4] the identifiers [uuid.uuid4()] hands out, in the order drawn. *)

Module Server.
Import Py Db AsyncNotation.

(** [generate_serial_number]: the next serial after the most recently
    created loan's, starting from A150. The bare [except] turns a suffix
    that [int()] rejects into 150. *)
Definition generate_serial_number : Async string :=
  last_loan <- await loans_find_one_latest ;;
  let next_num :=
    match last_loan with
    | Some l =>
        if truthy (Loan.serial_no l) then
          match int_of_str (slice_from_1 (Loan.serial_no l)) with
          | Some last_num => last_num + 1
          | None => 150
          end
        else 150
    | None => 150
    end in
  Return (String "A" (str_of_int next_num)).

Section Interest.

(** The C library's [pow], which [**] reaches (see [Py.float_pow]). *)
Variable pow : float -> float -> float.

(** [calculate_interest]: simple interest for the first year, compound
    after that, at 24% per annum. *)
Definition calculate_interest (principal : float) (start_date : datetime)
    (current_date : option datetime) (now : Z) : Result InterestInfo.t :=
  let current_date :=
    match current_date with
    | None => utc now
    | Some d => d
    end in
  match datetime_sub current_date start_date with
  | inl e => Err e
  | inr td =>
      let total_days := timedelta_days td in
      let annual_rate := 0.24%float in
      if total_days <=? 365 then
        let interest :=
          (principal * annual_rate * int_truediv total_days 365)%float in
        Ok {| InterestInfo.principal := principal;
              InterestInfo.interest := round interest 2;
              InterestInfo.total_amount := round (principal + interest) 2;
              InterestInfo.days := total_days;
              InterestInfo.interest_type := "simple" |}
      else
        let years := int_truediv total_days 365 in
        match float_pow pow (1 + annual_rate) years with
        | inl e => Err e
        | inr power =>
            let total_amount := (principal * power)%float in
            let interest := (total_amount - principal)%float in
            Ok {| InterestInfo.principal := principal;
                  InterestInfo.interest := round interest 2;
                  InterestInfo.total_amount := round (principal + interest) 2;
                  InterestInfo.days := total_days;
                  InterestInfo.interest_type := "compound" |}
        end
  end.

(** [GET /loans/{loan_id}/interest]. *)
Definition calculate_loan_interest (loan_id : string) (now : Z)
  : Async InterestInfo.t :=
  loan <- await (loans_find_one loan_id) ;;
  match loan with
  | None => Raise (HTTPException 404 "Loan not found")
  | Some loan =>
      match calculate_interest (Loan.principal_amount loan)
              (Loan.loan_date loan) None now with
      | inl e => Raise e
      | inr interest_info => Return interest_info
      end
  end.

End Interest.

Definition new_item (id : string) (item : ItemCreate.t) : Item.t :=
  {| Item.id := id;
     Item.qty := ItemCreate.qty item;
     Item.item_name := ItemCreate.item_name item;
     Item.metal := ItemCreate.metal item;
     Item.weight := ItemCreate.weight item;
     Item.percentage := ItemCreate.percentage item;
     Item.fine_weight := ItemCreate.fine_weight item;
     Item.value := ItemCreate.value item |}.

(** The items of a request, the [i]-th built with the identifier drawn
    [first + i]-th. *)
Fixpoint new_items (uuid4 : nat -> string) (first : nat)
    (items : list ItemCreate.t) : list Item.t :=
  match items with
  | [] => []
  | item :: rest => new_item (uuid4 first) item :: new_items uuid4 (S first) rest
  end.

(** [POST /loans]. The items are built first, then the loan, whose
    [created_at] is read from the clock after the serial has come back. *)
Definition create_loan (loan_data : LoanCreate.t) (uuid4 : nat -> string)
    (now : Z) : Async Loan.t :=
  serial_no <- generate_serial_number ;;
  let items := new_items uuid4 0 (LoanCreate.items loan_data) in
  let loan_obj :=
    {| Loan.id := uuid4 (List.length items);
       Loan.serial_no := serial_no;
       Loan.customer_id := LoanCreate.customer_id loan_data;
       Loan.customer_name := LoanCreate.customer_name loan_data;
       Loan.principal_amount := LoanCreate.principal_amount loan_data;
       Loan.monthly_interest := LoanCreate.monthly_interest loan_data;
       Loan.loan_date := LoanCreate.loan_date loan_data;
       Loan.last_interest_payment_date := None;
       Loan.status := "active";
       Loan.items := items;
       Loan.created_at := utc now |} in
  _ <- await (loans_insert_one loan_obj) ;;
  Return loan_obj.

(** [POST /payments]. *)
Definition create_payment (payment_data : PaymentCreate.t) (uuid : string)
    (now : Z) : Async Payment.t :=
  loan <- await (loans_find_one (PaymentCreate.loan_id payment_data)) ;;
  match loan with
  | None => Raise (HTTPException 404 "Loan not found")
  | Some loan =>
      let payment_obj :=
        {| Payment.id := uuid;
           Payment.loan_id := PaymentCreate.loan_id payment_data;
           Payment.loan_serial_no := Loan.serial_no loan;
           Payment.customer_name := Loan.customer_name loan;
           Payment.amount := PaymentCreate.amount payment_data;
           Payment.payment_date := PaymentCreate.payment_date payment_data;
           Payment.payment_type := "cash";
           Payment.notes := PaymentCreate.notes payment_data;
           Payment.created_at := utc now |} in
      _ <- await (payments_insert_one payment_obj) ;;
      Return payment_obj
  end.

End Server.

(* ===================================================================== *)
(** * Notions the properties are stated with *)
(* ===================================================================== *)

Module Ledger.
Import Py Db Server.

(** A [POST /loans] call: its body, the identifiers it draws, and the clock
    reading its loan is stamped with. *)
Definition Call : Type := (LoanCreate.t * (nat -> string) * Z)%type.

Definition clock (c : Call) : Z := snd c.

Definition create_call (c : Call) : Async Loan.t :=
  create_loan (fst (fst c)) (snd (fst c)) (snd c).

(** The serial a served call answered with. *)
Definition issued (r : Result Loan.t) : option string :=
  match r with
  | inr l => Some (Loan.serial_no l)
  | inl _ => None
  end.

(** The serial a coroutine of the pool has handed back, once it is done. *)
Definition received (m : Async Loan.t) : option string :=
  match m with
  | Return l => Some (Loan.serial_no l)
  | _ => None
  end.

Definition finished {A : Type} (r : Result A) : Async A :=
  match r with
  | inr a => Return a
  | inl e => Raise e
  end.

Definition created (l : Loan.t) : Z := instant (Loan.created_at l).

(** The rendering of serial number [n]. *)
Definition serial (n : Z) : string := String "A" (str_of_int n).

(** The number [generate_serial_number] arrives at on a loans collection. *)
Definition next_num (ls : list Loan.t) : Z :=
  match latest ls with
  | Some l =>
      if truthy (Loan.serial_no l) then
        match int_of_str (slice_from_1 (Loan.serial_no l)) with
        | Some last_num => last_num + 1
        | None => 150
        end
      else 150
  | None => 150
  end.

Definition add_loan (l : Loan.t) (db : Database) : Database :=
  {| loans := loans db ++ [l]; payments := payments db |}.

Definition add_payment (p : Payment.t) (db : Database) : Database :=
  {| loans := loans db; payments := payments db ++ [p] |}.

(** The payment [create_payment] builds for a request on a loan it found. *)
Definition payment_for (loan : Loan.t) (payment_data : PaymentCreate.t)
    (uuid : string) (now : Z) : Payment.t :=
  {| Payment.id := uuid;
     Payment.loan_id := PaymentCreate.loan_id payment_data;
     Payment.loan_serial_no := Loan.serial_no loan;
     Payment.customer_name := Loan.customer_name loan;
     Payment.amount := PaymentCreate.amount payment_data;
     Payment.payment_date := PaymentCreate.payment_date payment_data;
     Payment.payment_type := "cash";
     Payment.notes := PaymentCreate.notes payment_data;
     Payment.created_at := utc now |}.

(** The value of a decimal numeral read after the digits that gave [acc]. *)
Fixpoint uint_value (d : Decimal.uint) (acc : Z) : Z :=
  match d with
  | Decimal.Nil => acc
  | Decimal.D0 u => uint_value u (acc * 10 + 0)
  | Decimal.D1 u => uint_value u (acc * 10 + 1)
  | Decimal.D2 u => uint_value u (acc * 10 + 2)
  | Decimal.D3 u => uint_value u (acc * 10 + 3)
  | Decimal.D4 u => uint_value u (acc * 10 + 4)
  | Decimal.D5 u => uint_value u (acc * 10 + 5)
  | Decimal.D6 u => uint_value u (acc * 10 + 6)
  | Decimal.D7 u => uint_value u (acc * 10 + 7)
  | Decimal.D8 u => uint_value u (acc * 10 + 8)
  | Decimal.D9 u => uint_value u (acc * 10 + 9)
  end.

(** [r] is [v] or one of its two neighbours among the floats: the accuracy
    a C library documents for [pow]. *)
Definition within_one_ulp (r v : float) : Prop :=
  r = PrimFloat.next_down v \/ r = v \/ r = PrimFloat.next_up v.

(** [n] days, in microseconds. *)
Definition days (n : Z) : Z := n * microseconds_per_day.

(** ** Sample data *)

Definition sample_loan (id serial_no : string) (monthly_interest : float)
    (status : string) (created_at : Z) : Loan.t :=
  {| Loan.id := id;
     Loan.serial_no := serial_no;
     Loan.customer_id := "customer-001";
     Loan.customer_name := "Rajesh Kumar";
     Loan.principal_amount := 50000%float;
     Loan.monthly_interest := monthly_interest;
     Loan.loan_date := utc 0;
     Loan.last_interest_payment_date := None;
     Loan.status := status;
     Loan.items := [];
     Loan.created_at := utc created_at |}.

Definition sample_request : LoanCreate.t :=
  {| LoanCreate.customer_id := "customer-002";
     LoanCreate.customer_name := "Priya Sharma";
     LoanCreate.principal_amount := 25000%float;
     LoanCreate.monthly_interest := 2%float;
     LoanCreate.loan_date := utc 0;
     LoanCreate.items := [] |}.

Definition sample_uuid4 (n : nat) : string := "loan-new".

Definition sample_call (now : Z) : Call := (sample_request, sample_uuid4, now).

Definition ledger_of (ls : list Loan.t) : Database :=
  {| loans := ls; payments := [] |}.

Definition active_ledger : Database :=
  ledger_of [sample_loan "loan-001" "A150" 2 "active" 0].

Definition closed_ledger : Database :=
  ledger_of [sample_loan "loan-001" "A150" 2 "closed" 0].

(** A ledger whose most recently created loan carries a serial that is
    not a number after its letter. *)
Definition malformed_ledger : Database :=
  ledger_of [sample_loan "loan-001" "A150" 2 "active" 1;
             sample_loan "loan-002" "A15x" 2 "active" 2].

(** The body of a payment on the sample loan, 30 days after the loan
    date, with a purpose and a split. *)
Definition sample_payment (amount : float) (transaction_type : string)
    (principal_paid interest_paid : float) : PaymentBody.t :=
  {| PaymentBody.loan_id := "loan-001";
     PaymentBody.amount := amount;
     PaymentBody.payment_date := utc (days 30);
     PaymentBody.notes := None;
     PaymentBody.transaction_type := Some transaction_type;
     PaymentBody.principal_paid := Some principal_paid;
     PaymentBody.interest_paid := Some interest_paid |}.

(** The body of a payment that names no purpose and no split. *)
Definition plain_payment (loan_id : string) (amount : float) : PaymentBody.t :=
  {| PaymentBody.loan_id := loan_id;
     PaymentBody.amount := amount;
     PaymentBody.payment_date := utc (days 30);
     PaymentBody.notes := None;
     PaymentBody.transaction_type := None;
     PaymentBody.principal_paid := None;
     PaymentBody.interest_paid := None |}.

End Ledger.

(* ===================================================================== *)
(** * The other routes of backend/server.py *)
(* ===================================================================== *)

(** [str.strip()] on ASCII text. *)
Module PyText.

(** [c.isspace()] for an ASCII character: tab to carriage return, the four
    separators 0x1c to 0x1f, and the space. *)
Definition isspace (c : ascii) : bool :=
  let n := nat_of_ascii c in
  ((n =? 32) || ((9 <=? n) && (n <=? 13)) || ((28 <=? n) && (n <=? 31)))%nat.

Fixpoint lstrip (s : string) : string :=
  match s with
  | EmptyString => EmptyString
  | String c rest => if isspace c then lstrip rest else s
  end.

Fixpoint rstrip (s : string) : string :=
  match s with
  | EmptyString => EmptyString
  | String c rest =>
      match rstrip rest with
      | EmptyString => if isspace c then EmptyString else String c EmptyString
      | kept => String c kept
      end
  end.

Definition strip (s : string) : string := rstrip (lstrip s).

Fixpoint all_isspace (s : string) : bool :=
  match s with
  | EmptyString => true
  | String c rest => isspace c && all_isspace rest
  end.

End PyText.

Module Customer.
Record t : Type := mk {
  id : string;
  name : string;
  phone : string;
  address : string;
  id_proof : string;
  created_at : Py.datetime
}.
End Customer.

Module CustomerCreate.
Record t : Type := mk {
  name : string;
  phone : string;
  address : string;
  id_proof : string
}.
End CustomerCreate.

Module DashboardStats.
Record t : Type := mk {
  total_active_loans : Z;
  total_loan_amount : float;
  total_customers : Z;
  cash_in_hand : float;
  recent_loans : list Loan.t;
  recent_payments : list Payment.t
}.
End DashboardStats.

(** The routes below are run alone, their database calls in the order
    written. A route on loans and payments takes the [Database] and hands
    it back with its answer, as [Db.run] does for a coroutine; a route on
    customers does the same with the customers collection. *)
Module Routes.
Import Py Db.

(** [cursor.to_list(n)]: at most [n] documents, in the cursor's order. *)
Definition to_list {A : Type} (n : nat) (docs : list A) : list A := firstn n docs.

(** [delete_one(filter)]: the first document that matches is removed;
    the count of deleted documents comes back with the collection. *)
Fixpoint delete_one {A : Type} (matches : A -> bool) (docs : list A)
  : list A * Z :=
  match docs with
  | [] => ([], 0)
  | d :: rest =>
      if matches d then (rest, 1)
      else let (rest', n) := delete_one matches rest in (d :: rest', n)
  end.

(** [sort(key, -1)]: greatest key first. Among equal keys the database is
    free to pick; the order of insertion is kept here. *)
Fixpoint insert_desc {A : Type} (key : A -> Z) (x : A) (sorted : list A)
  : list A :=
  match sorted with
  | [] => [x]
  | y :: rest =>
      if key y <=? key x then x :: sorted else y :: insert_desc key x rest
  end.

Definition sort_desc {A : Type} (key : A -> Z) (docs : list A) : list A :=
  fold_right (insert_desc key) [] docs.

(** [GET /loans]: an absent or empty [status] means no filter. *)
Definition get_loans (status : option string) (db : Database)
  : Database * Result (list Loan.t) :=
  let query :=
    match status with
    | Some s => if truthy s then Some s else None
    | None => None
    end in
  let found :=
    match query with
    | Some s => filter (fun l => String.eqb (Loan.status l) s) (loans db)
    | None => loans db
    end in
  (db, Ok (to_list 1000 found)).

(** [GET /loans/{loan_id}]. *)
Definition get_loan (loan_id : string) (db : Database)
  : Database * Result Loan.t :=
  match find_by_id loan_id (loans db) with
  | None => (db, Err (HTTPException 404 "Loan not found"))
  | Some loan => (db, Ok loan)
  end.

(** [DELETE /loans/{loan_id}]; the answer is the message of the body. *)
Definition delete_loan (loan_id : string) (db : Database)
  : Database * Result string :=
  let (remaining, deleted_count) :=
    delete_one (fun l => String.eqb (Loan.id l) loan_id) (loans db) in
  let db' := {| loans := remaining; payments := payments db |} in
  if deleted_count =? 0
  then (db', Err (HTTPException 404 "Loan not found"))
  else (db', Ok "Loan deleted successfully").

(** [GET /payments]. *)
Definition get_payments (db : Database) : Database * Result (list Payment.t) :=
  (db, Ok (to_list 1000 (payments db))).

(** [POST /customers]: the four fields are checked in turn, each for text
    that is left after [strip()]. *)
Definition create_customer (customer_data : CustomerCreate.t) (uuid : string)
    (now : Z) (customers : list Customer.t)
  : list Customer.t * Result Customer.t :=
  if negb (truthy (PyText.strip (CustomerCreate.name customer_data))) then
    (customers, Err (HTTPException 400 "Customer name is required"))
  else if negb (truthy (PyText.strip (CustomerCreate.phone customer_data))) then
    (customers, Err (HTTPException 400 "Phone number is required"))
  else if negb (truthy (PyText.strip (CustomerCreate.address customer_data))) then
    (customers, Err (HTTPException 400 "Address is required"))
  else if negb (truthy (PyText.strip (CustomerCreate.id_proof customer_data))) then
    (customers, Err (HTTPException 400 "ID proof is required"))
  else
    let customer_obj :=
      {| Customer.id := uuid;
         Customer.name := CustomerCreate.name customer_data;
         Customer.phone := CustomerCreate.phone customer_data;
         Customer.address := CustomerCreate.address customer_data;
         Customer.id_proof := CustomerCreate.id_proof customer_data;
         Customer.created_at := utc now |} in
    (customers ++ [customer_obj], Ok customer_obj).



Section Dashboard.

(** The built-in [sum] on a list of floats, taken in order. How the
    running total is rounded differs between CPython versions, so the
    function is a parameter. *)
Variable sum : list float -> float.

(** [GET /dashboard]; it reads and writes nothing back. *)
Definition get_dashboard_stats (db : Database) (customers : list Customer.t)
  : DashboardStats.t :=
  let active_loans :=
    to_list 1000
      (filter (fun l => String.eqb (Loan.status l) "active") (loans db)) in
  let total_active_loans := Z.of_nat (List.length active_loans) in
  let total_loan_amount := sum (map Loan.principal_amount active_loans) in
  let total_customers := Z.of_nat (List.length customers) in
  let payments_found := to_list 1000 (payments db) in
  let cash_in_hand := sum (map Payment.amount payments_found) in
  let recent_loans :=
    to_list 5
      (firstn 5 (sort_desc (fun l => instant (Loan.created_at l)) (loans db))) in
  let recent_payments :=
    to_list 5
      (firstn 5
         (sort_desc (fun p => instant (Payment.created_at p)) (payments db))) in
  {| DashboardStats.total_active_loans := total_active_loans;
     DashboardStats.total_loan_amount := total_loan_amount;
     DashboardStats.total_customers := total_customers;
     DashboardStats.cash_in_hand := cash_in_hand;
     DashboardStats.recent_loans := recent_loans;
     DashboardStats.recent_payments := recent_payments |}.

End Dashboard.

End Routes.

(** Notions and sample data for the properties of the routes above. *)
Module Samples.
Import Py Db Ledger.

(** What an item holds besides its identifier. *)
Definition item_data (item : Item.t) : ItemCreate.t :=
  {| ItemCreate.qty := Item.qty item;
     ItemCreate.item_name := Item.item_name item;
     ItemCreate.metal := Item.metal item;
     ItemCreate.weight := Item.weight item;
     ItemCreate.percentage := Item.percentage item;
     ItemCreate.fine_weight := Item.fine_weight item;
     ItemCreate.value := Item.value item |}.

Definition is_active (l : Loan.t) : bool := String.eqb (Loan.status l) "active".

Definition payment_created (p : Payment.t) : Z := instant (Payment.created_at p).

Definition sample_item (item_name : string) : ItemCreate.t :=
  {| ItemCreate.qty := 1;
     ItemCreate.item_name := item_name;
     ItemCreate.metal := "Gold";
     ItemCreate.weight := 10.5%float;
     ItemCreate.percentage := 95%float;
     ItemCreate.fine_weight := 9.975%float;
     ItemCreate.value := 55000%float |}.

Definition request_with_items : LoanCreate.t :=
  {| LoanCreate.customer_id := "customer-002";
     LoanCreate.customer_name := "Priya Sharma";
     LoanCreate.principal_amount := 25000%float;
     LoanCreate.monthly_interest := 2%float;
     LoanCreate.loan_date := utc 0;
     LoanCreate.items := [sample_item "Gold Chain"; sample_item "Gold Ring"] |}.

(** Identifiers drawn in order: "uuid-0", "uuid-1", ... *)
Definition numbered_uuid4 (n : nat) : string :=
  String.append "uuid-" (str_of_int (Z.of_nat n)).

Definition sample_customer (name : string) : CustomerCreate.t :=
  {| CustomerCreate.name := name;
     CustomerCreate.phone := "+91-9876543210";
     CustomerCreate.address := "123, MG Road, Bangalore";
     CustomerCreate.id_proof := "AADHAR-123456789012" |}.

(** Two loans on record, the first closed, the second active. *)
Definition two_loan_ledger : Database :=
  ledger_of [sample_loan "loan-001" "A150" 2 "closed" 1;
             sample_loan "loan-002" "A151" 2 "active" 2].

(** A stand-in for [sum]: the amounts added from the left, starting at 0. *)
Definition sum_left (xs : list float) : float :=
  fold_left PrimFloat.add xs 0%float.

(** The longest numeral, in digits, that [int()] and [str()] convert by
    default on CPython 3.11 and later; earlier versions have no limit. *)
Definition int_max_str_digits : Z := 4300.

(** [a] is at least as new as [b]. *)
Definition newer_first {A : Type} (key : A -> Z) (a b : A) : Prop :=
  key b <= key a.

(** The payment recorded for an interest payment of 100 on the sample loan. *)
Definition sample_payment_doc : Payment.t :=
  payment_for (sample_loan "loan-001" "A150" 2 "active" 0)
    (PaymentBody.validate (sample_payment 100 "interest" 0 100))
    "payment-000" (days 30).

(** The sample loan with a thousand payments on record. *)
Definition thousand_payments : Database :=
  {| loans := [sample_loan "loan-001" "A150" 2 "active" 0];
     payments := repeat sample_payment_doc 1000 |}.

(** A loan whose loan date carries no UTC offset. *)
Definition naive_loan : Loan.t :=
  {| Loan.id := "loan-009";
     Loan.serial_no := "A159";
     Loan.customer_id := "customer-001";
     Loan.customer_name := "Rajesh Kumar";
     Loan.principal_amount := 50000%float;
     Loan.monthly_interest := 2%float;
     Loan.loan_date := {| instant := 0; tzaware := false |};
     Loan.last_interest_payment_date := None;
     Loan.status := "active";
     Loan.items := [];
     Loan.created_at := utc 0 |}.

End Samples.

(* ===================================================================== *)
(** * Properties *)
(* ===================================================================== *)

Import Py Db Server Ledger.

(** ** Numerals: [int(str(n)) == n] *)

Section Numerals.

Lemma int_digits_uint (d : Decimal.uint) :
  forall acc, int_digits acc (NilEmpty.string_of_uint d) = Some (uint_value d acc).
Proof.
  induction d; intro acc; cbn [NilEmpty.string_of_uint uint_value int_digits];
    try reflexivity; rewrite <- IHd; reflexivity.
Qed.

Lemma uint_value_pos (d : Decimal.uint) :
  forall p, uint_value d (Zpos p) = Zpos (Pos.of_uint_acc d p).
Proof.
  induction d; intro p; cbn [uint_value Pos.of_uint_acc]; try reflexivity;
    rewrite <- IHd; f_equal; lia.
Qed.

Lemma uint_value_0 (d : Decimal.uint) : uint_value d 0 = Z.of_N (Pos.of_uint d).
Proof.
  induction d; cbn [uint_value Pos.of_uint]; try reflexivity;
    try exact IHd; apply (uint_value_pos d).
Qed.

Lemma int_unsigned_uint (d : Decimal.uint) :
  d <> Decimal.Nil ->
  int_unsigned (NilEmpty.string_of_uint d) = Some (Z.of_N (Pos.of_uint d)).
Proof.
  intro Hd. rewrite <- uint_value_0.
  destruct d; try congruence;
    cbn [NilEmpty.string_of_uint int_unsigned uint_value];
    apply int_digits_uint.
Qed.

Lemma lstrip_uint (d : Decimal.uint) :
  lstrip (NilEmpty.string_of_uint d) = NilEmpty.string_of_uint d.
Proof. destruct d; reflexivity. Qed.

Lemma int_of_str_uint (d : Decimal.uint) :
  d <> Decimal.Nil ->
  int_of_str (NilEmpty.string_of_uint d) = Some (Z.of_N (Pos.of_uint d)).
Proof.
  intro Hd. rewrite <- (int_unsigned_uint d Hd).
  unfold int_of_str. rewrite lstrip_uint.
  destruct d; try congruence; reflexivity.
Qed.

Lemma string_of_to_uint (p : positive) :
  NilZero.string_of_uint (Pos.to_uint p) = NilEmpty.string_of_uint (Pos.to_uint p).
Proof.
  pose proof (Unsigned.to_uint_nonnil p) as Hp.
  destruct (Pos.to_uint p); [congruence | reflexivity ..].
Qed.

Lemma int_of_str_of_int (n : Z) : int_of_str (str_of_int n) = Some n.
Proof.
  destruct n as [| p | p]; [reflexivity | |].
  - unfold str_of_int. cbn [Z.to_int NilZero.string_of_int].
    rewrite string_of_to_uint, int_of_str_uint by apply Unsigned.to_uint_nonnil.
    now rewrite Unsigned.of_to.
  - unfold str_of_int. cbn [Z.to_int NilZero.string_of_int].
    rewrite string_of_to_uint.
    unfold int_of_str. cbn [lstrip].
    change (is_space "-") with false. cbv iota.
    change (Ascii.eqb "-" "+") with false.
    change (Ascii.eqb "-" "-") with true. cbv iota.
    rewrite int_unsigned_uint by apply Unsigned.to_uint_nonnil.
    now rewrite Unsigned.of_to.
Qed.

Lemma str_of_int_inj (n m : Z) : str_of_int n = str_of_int m -> n = m.
Proof.
  intro H. apply (f_equal int_of_str) in H.
  rewrite !int_of_str_of_int in H. congruence.
Qed.

Lemma serial_inj (n m : Z) : serial n = serial m -> n = m.
Proof. unfold serial. intro H. injection H as H. now apply str_of_int_inj. Qed.

End Numerals.

(** ** Loans created one after another *)

Section SerialNumbers.

Lemma run_generate_serial_number (db : Database) :
  run generate_serial_number db = (db, Ok (serial (next_num (loans db)))).
Proof. reflexivity. Qed.

Lemma run_create_loan (c : Call) (db : Database) :
  exists loan,
    run (create_call c) db = (add_loan loan db, Ok loan)
    /\ Loan.serial_no loan = serial (next_num (loans db))
    /\ created loan = clock c.
Proof. eexists. split; [reflexivity | split; reflexivity]. Qed.

Lemma latest_snoc (ls : list Loan.t) (l : Loan.t) :
  Forall (fun x => created x < created l) ls -> latest (ls ++ [l]) = Some l.
Proof.
  induction 1 as [| x xs Hx _ IH]; [reflexivity |].
  cbn [app latest]. rewrite IH.
  fold (created x) (created l).
  destruct (Z.ltb_spec (created x) (created l)); [reflexivity | lia].
Qed.

Lemma next_num_snoc (ls : list Loan.t) (l : Loan.t) (k : Z) :
  Forall (fun x => created x < created l) ls ->
  Loan.serial_no l = serial k ->
  next_num (ls ++ [l]) = k + 1.
Proof.
  intros Hls Hk. unfold next_num. rewrite (latest_snoc _ _ Hls), Hk.
  unfold serial. cbn [truthy String.eqb negb slice_from_1].
  now rewrite int_of_str_of_int.
Qed.

(** Served one after another, on a ledger whose loans are all older than
    the calls and with the clock moving forward, the calls are answered
    with consecutive serials. *)
Lemma run_all_create_loan (calls : list Call) :
  forall db,
    Forall (fun l => Forall (fun c => created l < clock c) calls) (loans db) ->
    StronglySorted Z.lt (map clock calls) ->
    map issued (snd (run_all (map create_call calls) db))
    = map (fun i => Some (serial (next_num (loans db) + Z.of_nat i)))
          (seq 0 (List.length calls)).
Proof.
  induction calls as [| c calls IH]; intros db Hold Hclk; [reflexivity |].
  cbn [map run_all List.length seq].
  destruct (run_create_loan c db) as (loan & Hrun & Hserial & Hcreated).
  rewrite Hrun.
  destruct (run_all (map create_call calls) (add_loan loan db)) as [db2 rs] eqn:Hrest.
  cbn [snd map]. unfold issued at 1, Ok at 1.
  rewrite Hserial, Z.add_0_r. f_equal.
  apply StronglySorted_inv in Hclk as [Hclk Hc].
  assert (Hbefore : Forall (fun x => created x < created loan) (loans db)).
  { eapply Forall_impl; [| exact Hold]. cbn. intros x Hx.
    rewrite Hcreated. now inversion Hx. }
  specialize (IH (add_loan loan db)). rewrite Hrest in IH. cbn [snd] in IH.
  rewrite IH; [| | exact Hclk].
  - rewrite <- seq_shift, map_map. apply map_ext. intro i.
    cbn [add_loan loans]. rewrite (next_num_snoc _ _ _ Hbefore Hserial).
    do 2 f_equal. lia.
  - cbn [add_loan loans]. apply Forall_app. split.
    + eapply Forall_impl; [| exact Hold]. cbn. intros x Hx. now inversion Hx.
    + constructor; [| constructor]. rewrite Hcreated.
      apply Forall_map. exact Hc.
Qed.

Lemma NoDup_serials (k : Z) (n : nat) :
  NoDup (map (fun i => serial (k + Z.of_nat i)) (seq 0 n)).
Proof.
  apply NoDup_map_NoDup_ForallPairs; [| apply seq_NoDup].
  intros i j _ _ H. apply serial_inj in H. lia.
Qed.

End SerialNumbers.

(** ** Calls in flight together *)

Section Interleaving.

Lemma resume_app {A : Type} (done : Pool A) (m : Async A) (rest : Pool A)
    (db : Database) :
  resume (List.length done) (done ++ m :: rest) db
  = (fst (advance m db), done ++ snd (advance m db) :: rest).
Proof.
  induction done as [| d done IH]; cbn [List.length app resume].
  - now destruct (advance m db).
  - now rewrite IH.
Qed.

(** [create_loan] is two steps: the lookup of the latest loan, then the
    insertion of the new one. *)
Lemma create_call_steps (c : Call) (db : Database) :
  exists loan mid,
    run (create_call c) db = (add_loan loan db, Ok loan)
    /\ advance (create_call c) db = (db, mid)
    /\ advance mid db = (add_loan loan db, Return loan).
Proof. do 2 eexists. repeat split; reflexivity. Qed.

(** The schedule without overlap does what serving the calls in turn does. *)
Lemma run_serial_schedule (calls : list Call) :
  forall (done : Pool Loan.t) (db : Database),
    run_schedule
      (flat_map (fun i => repeat i 2) (seq (List.length done) (List.length calls)))
      (done ++ map create_call calls) db
    = (fst (run_all (map create_call calls) db),
       done ++ map finished (snd (run_all (map create_call calls) db))).
Proof.
  induction calls as [| c calls IH]; intros done db.
  - reflexivity.
  - cbn [List.length seq flat_map repeat app map run_schedule run_all].
    destruct (create_call_steps c db) as (loan & mid & Hrun & H1 & H2).
    rewrite resume_app, H1. cbn [fst snd].
    rewrite resume_app, H2. cbn [fst snd].
    rewrite Hrun.
    replace (done ++ Return loan :: map create_call calls)
      with ((done ++ [Return loan]) ++ map create_call calls)
      by now rewrite <- app_assoc.
    replace (S (List.length done)) with (List.length (done ++ [Return loan]))
      by (rewrite length_app; cbn; lia).
    rewrite IH.
    destruct (run_all (map create_call calls) (add_loan loan db)) as [db2 rs].
    cbn [fst snd map finished Ok]. now rewrite <- app_assoc.
Qed.

Lemma received_finished (rs : list (Result Loan.t)) :
  map received (map finished rs) = map issued rs.
Proof.
  rewrite map_map. apply map_ext. now intros [e | l].
Qed.

End Interleaving.

(** ** Interest accrual *)

Section Accrual.

Variable pow : float -> float -> float.

Lemma calculate_interest_simple (principal : float)
    (start_date as_of : datetime) (now : Z) :
  tzaware as_of = tzaware start_date ->
  let d := timedelta_days (instant as_of - instant start_date) in
  let interest := (principal * 0.24 * int_truediv d 365)%float in
  d <= 365 ->
  calculate_interest pow principal start_date (Some as_of) now
  = Ok {| InterestInfo.principal := principal;
          InterestInfo.interest := round interest 2;
          InterestInfo.total_amount := round (principal + interest) 2;
          InterestInfo.days := d;
          InterestInfo.interest_type := "simple" |}.
Proof.
  intros Haware d interest Hd.
  unfold calculate_interest, datetime_sub.
  rewrite Haware, Bool.eqb_reflx. unfold Ok at 1. cbv beta iota.
  fold d. destruct (Z.leb_spec d 365); [reflexivity | lia].
Qed.

Lemma calculate_interest_compound (principal : float)
    (start_date as_of : datetime) (now : Z) :
  tzaware as_of = tzaware start_date ->
  let d := timedelta_days (instant as_of - instant start_date) in
  let power := pow (1 + 0.24)%float (int_truediv d 365) in
  let interest := (principal * power - principal)%float in
  365 < d ->
  PrimFloat.is_infinity power = false ->
  calculate_interest pow principal start_date (Some as_of) now
  = Ok {| InterestInfo.principal := principal;
          InterestInfo.interest := round interest 2;
          InterestInfo.total_amount := round (principal + interest) 2;
          InterestInfo.days := d;
          InterestInfo.interest_type := "compound" |}.
Proof.
  intros Haware d power interest Hd Hfin.
  unfold calculate_interest, datetime_sub.
  rewrite Haware, Bool.eqb_reflx. unfold Ok at 1. cbv beta iota.
  fold d. destruct (Z.leb_spec d 365); [lia |].
  unfold float_pow. fold power. rewrite Hfin. reflexivity.
Qed.

(** Two years of compounding on 50000, for any [pow] within one ulp of the
    exact square. *)
Lemma two_years_of_50000 (power : float) :
  within_one_ulp power ((1 + 0.24) * (1 + 0.24))%float ->
  PrimFloat.is_infinity power = false
  /\ round (50000 * power - 50000) 2 = 26880%float
  /\ round (50000 + (50000 * power - 50000)) 2 = 76880%float.
Proof.
  intros [-> | [-> | ->]]; vm_compute; repeat split.
Qed.

(** C1, as the code has it: [calculate_interest] takes no rate, the annual
    rate is the constant 0.24, and both amounts it returns are rounded to
    two decimals. For dates of the same kind (both aware or both naive)
    and [d] whole days between them: when [d <= 365] (365 included) the
    result is tagged "simple" and its interest is
    [round(principal * 0.24 * (d / 365), 2)]; when [d > 365] and the power
    is finite, it is tagged "compound", with interest
    [round(principal * 1.24 ** (d / 365) - principal, 2)] and total
    [round(principal + interest, 2)] on the unrounded interest. For 50000
    over 730 days, with [pow] within one ulp of the exact square, the
    total is 76880.00 and the interest 26880.00. *)
Theorem C1_accrual_regimes (principal : float) (start_date as_of : datetime)
    (now : Z) :
  tzaware as_of = tzaware start_date ->
  let d := timedelta_days (instant as_of - instant start_date) in
  let simple := (principal * 0.24 * int_truediv d 365)%float in
  let power := pow (1 + 0.24)%float (int_truediv d 365) in
  let compound := (principal * power - principal)%float in
  (d <= 365 ->
   calculate_interest pow principal start_date (Some as_of) now
   = Ok {| InterestInfo.principal := principal;
           InterestInfo.interest := round simple 2;
           InterestInfo.total_amount := round (principal + simple) 2;
           InterestInfo.days := d;
           InterestInfo.interest_type := "simple" |})
  /\ (365 < d -> PrimFloat.is_infinity power = false ->
      calculate_interest pow principal start_date (Some as_of) now
      = Ok {| InterestInfo.principal := principal;
              InterestInfo.interest := round compound 2;
              InterestInfo.total_amount := round (principal + compound) 2;
              InterestInfo.days := d;
              InterestInfo.interest_type := "compound" |})
  /\ (principal = 50000%float -> d = 730 ->
      within_one_ulp power ((1 + 0.24) * (1 + 0.24))%float ->
      calculate_interest pow principal start_date (Some as_of) now
      = Ok {| InterestInfo.principal := 50000%float;
              InterestInfo.interest := 26880%float;
              InterestInfo.total_amount := 76880%float;
              InterestInfo.days := 730;
              InterestInfo.interest_type := "compound" |}).
Proof.
  intros Haware d simple power compound. repeat split.
  - intro Hd. now apply calculate_interest_simple.
  - intros Hd Hfin. now apply calculate_interest_compound.
  - intros Hp Hd Hpow.
    destruct (two_years_of_50000 power Hpow) as (Hfin & Hinterest & Htotal).
    rewrite (calculate_interest_compound principal start_date as_of now Haware);
      fold d; fold power; [| lia | exact Hfin].
    rewrite Hp, Hinterest, Htotal, Hd. reflexivity.
Qed.

(** C3, as the code has it: an as-of date strictly earlier than the start
    date (both of the same kind) raises nothing. The day count is negative,
    so the simple branch is taken and a result comes back, with the
    (rounded) interest formula evaluated on the negative count. *)
Theorem C3_earlier_as_of_date_returns (principal : float)
    (start_date as_of : datetime) (now : Z) :
  tzaware as_of = tzaware start_date ->
  instant as_of < instant start_date ->
  let d := timedelta_days (instant as_of - instant start_date) in
  let interest := (principal * 0.24 * int_truediv d 365)%float in
  d < 0
  /\ calculate_interest pow principal start_date (Some as_of) now
     = Ok {| InterestInfo.principal := principal;
             InterestInfo.interest := round interest 2;
             InterestInfo.total_amount := round (principal + interest) 2;
             InterestInfo.days := d;
             InterestInfo.interest_type := "simple" |}.
Proof.
  intros Haware Hlt d interest.
  assert (Hd : d < 0).
  { unfold d, timedelta_days.
    apply Z.div_lt_upper_bound; [reflexivity | lia]. }
  split; [exact Hd |].
  apply calculate_interest_simple; [exact Haware | fold d; lia].
Qed.

Lemma run_calculate_loan_interest (db : Database) (loan_id : string) (now : Z) :
  run (calculate_loan_interest pow loan_id now) db
  = (db,
     match find_by_id loan_id (loans db) with
     | None => Err (HTTPException 404 "Loan not found")
     | Some loan =>
         calculate_interest pow (Loan.principal_amount loan)
           (Loan.loan_date loan) None now
     end).
Proof.
  unfold calculate_loan_interest.
  cbn [await bind run exec].
  destruct (find_by_id loan_id (loans db)) as [loan |]; [| reflexivity].
  now destruct (calculate_interest pow (Loan.principal_amount loan)
                  (Loan.loan_date loan) None now).
Qed.


(** C9, on the code: the total for a principal of 1000.125 on the day the
    loan starts. The unrounded total is exactly 1000.125, a tie between
    1000.12 and 1000.13; [round] gives 1000.12. *)
Theorem C9_total_at_a_tie :
  calculate_interest pow 1000.125 (utc 0) (Some (utc 0)) 0
  = Ok {| InterestInfo.principal := 1000.125%float;
          InterestInfo.interest := 0%float;
          InterestInfo.total_amount := 1000.12%float;
          InterestInfo.days := 0;
          InterestInfo.interest_type := "simple" |}.
Proof. vm_compute. reflexivity. Qed.

End Accrual.

(** Instances of C1: 180 days (simple), three years (compound) and the two
    years of the 50000 example, with [pow_whole] for [pow]. *)
Lemma C1_accrual_regimes_witness :
  calculate_interest pow_whole 50000 (utc 0) (Some (utc (days 180))) 0
  = Ok {| InterestInfo.principal := 50000%float;
          InterestInfo.interest := 5917.81%float;
          InterestInfo.total_amount := 55917.81%float;
          InterestInfo.days := 180;
          InterestInfo.interest_type := "simple" |}
  /\ calculate_interest pow_whole 1000 (utc 0) (Some (utc (days 1095))) 0
     = Ok {| InterestInfo.principal := 1000%float;
             InterestInfo.interest := 906.62%float;
             InterestInfo.total_amount := 1906.62%float;
             InterestInfo.days := 1095;
             InterestInfo.interest_type := "compound" |}
  /\ calculate_interest pow_whole 50000 (utc 0) (Some (utc (days 730))) 0
     = Ok {| InterestInfo.principal := 50000%float;
             InterestInfo.interest := 26880%float;
             InterestInfo.total_amount := 76880%float;
             InterestInfo.days := 730;
             InterestInfo.interest_type := "compound" |}.
Proof.
  split; [| split].
  - apply (proj1 (C1_accrual_regimes pow_whole 50000 (utc 0)
                    (utc (days 180)) 0 eq_refl)).
    vm_compute. discriminate.
  - apply (proj1 (proj2 (C1_accrual_regimes pow_whole 1000 (utc 0)
                           (utc (days 1095)) 0 eq_refl))).
    + reflexivity.
    + vm_compute. reflexivity.
  - apply (proj2 (proj2 (C1_accrual_regimes pow_whole 50000 (utc 0)
                           (utc (days 730)) 0 eq_refl))).
    + reflexivity.
    + vm_compute. reflexivity.
    + right. left. vm_compute. reflexivity.
Defined.

(** Against C1 as stated. The computation has no rate input: for 1000 over
    365 days the claim at an annual rate of 0.12 gives 120, and 240 comes
    back. And the interest that comes back is the rounded one: for 50000
    over 180 days it is 5917.81, not the product 5917.808219... *)
Lemma C1_counterexample :
  (exists r,
     calculate_interest pow_whole 1000 (utc 0) (Some (utc (days 365))) 0 = Ok r
     /\ InterestInfo.interest_type r = "simple"
     /\ InterestInfo.interest r = 240%float
     /\ (1000 * 0.12 * int_truediv 365 365)%float = 120%float
     /\ PrimFloat.eqb (InterestInfo.interest r)
          (1000 * 0.12 * int_truediv 365 365) = false)
  /\ (exists r,
        calculate_interest pow_whole 50000 (utc 0) (Some (utc (days 180))) 0 = Ok r
        /\ InterestInfo.interest r = 5917.81%float
        /\ PrimFloat.eqb (InterestInfo.interest r)
             (50000 * 0.24 * int_truediv 180 365) = false).
Proof.
  split; eexists; (split; [vm_compute; reflexivity |]); vm_compute; repeat split.
Qed.

(** An instance of C3: as of ten days before the start. *)
Lemma C3_earlier_as_of_date_returns_witness :
  calculate_interest pow_whole 50000 (utc (days 10)) (Some (utc 0)) 0
  = Ok {| InterestInfo.principal := 50000%float;
          InterestInfo.interest := (-328.77)%float;
          InterestInfo.total_amount := 49671.23%float;
          InterestInfo.days := -10;
          InterestInfo.interest_type := "simple" |}.
Proof.
  apply (proj2 (C3_earlier_as_of_date_returns pow_whole 50000
                  (utc (days 10)) (utc 0) 0 eq_refl eq_refl)).
Defined.

(** Against C3 as stated: as of ten days before the start the computation
    raises nothing; it returns a result with -10 days and a negative
    interest. *)
Lemma C3_counterexample :
  instant (utc 0) < instant (utc (days 10))
  /\ exists r,
       calculate_interest pow_whole 50000 (utc (days 10)) (Some (utc 0)) 0 = Ok r
       /\ InterestInfo.days r = -10
       /\ InterestInfo.interest r = (-328.77)%float.
Proof.
  split; [reflexivity |].
  eexists. split; [vm_compute; reflexivity |]. split; reflexivity.
Qed.



(** ** Payments *)

Section Payments.

Lemma run_create_payment (db : Database) (payment_data : PaymentCreate.t)
    (uuid : string) (now : Z) :
  run (create_payment payment_data uuid now) db
  = match find_by_id (PaymentCreate.loan_id payment_data) (loans db) with
    | None => (db, Err (HTTPException 404 "Loan not found"))
    | Some loan =>
        (add_payment (payment_for loan payment_data uuid now) db,
         Ok (payment_for loan payment_data uuid now))
    end.
Proof.
  unfold create_payment. cbn [await bind run exec].
  now destruct (find_by_id (PaymentCreate.loan_id payment_data) (loans db)).
Qed.

(** What [create_payment] does with a request body on a loan it finds: the
    payment it answers with is appended, the loans are left as they were,
    and the payment carries the loan id, amount, date and notes of the
    body, the serial and customer name of the loan, and the type "cash". *)
Lemma run_create_payment_found (db : Database) (body : PaymentBody.t)
    (uuid : string) (now : Z) (loan : Loan.t) :
  find_by_id (PaymentBody.loan_id body) (loans db) = Some loan ->
  exists p db',
    run (create_payment (PaymentBody.validate body) uuid now) db = (db', Ok p)
    /\ loans db' = loans db
    /\ payments db' = payments db ++ [p]
    /\ Payment.loan_id p = PaymentBody.loan_id body
    /\ Payment.amount p = PaymentBody.amount body
    /\ Payment.payment_date p = PaymentBody.payment_date body
    /\ Payment.notes p = PaymentBody.notes body
    /\ Payment.loan_serial_no p = Loan.serial_no loan
    /\ Payment.customer_name p = Loan.customer_name loan
    /\ Payment.payment_type p = "cash".
Proof.
  intro Hfind. rewrite run_create_payment.
  cbn [PaymentBody.validate PaymentCreate.loan_id]. rewrite Hfind.
  do 2 eexists. repeat split.
Qed.

(** Purpose and split of a body are not read: two bodies that agree on
    loan id, amount, date and notes are served alike. *)
Lemma create_payment_ignores_split (db : Database) (body body' : PaymentBody.t)
    (uuid : string) (now : Z) :
  PaymentBody.loan_id body' = PaymentBody.loan_id body ->
  PaymentBody.amount body' = PaymentBody.amount body ->
  PaymentBody.payment_date body' = PaymentBody.payment_date body ->
  PaymentBody.notes body' = PaymentBody.notes body ->
  run (create_payment (PaymentBody.validate body') uuid now) db
  = run (create_payment (PaymentBody.validate body) uuid now) db.
Proof.
  intros Hid Hamount Hdate Hnotes. unfold PaymentBody.validate.
  now rewrite Hid, Hamount, Hdate, Hnotes.
Qed.

(** C4, as the code has it: [create_payment] has one failure, HTTP 404
    "Loan not found" for a loan that is absent, and then the database is
    left as it was. For a loan that is found, whatever its status and
    whatever the amount, the call succeeds: one payment, carrying the loan
    id, amount, date and notes of the request, is appended and the loans
    are left as they were. The request class declares no purpose and no
    split, so what a body says of them is dropped: bodies that agree on
    the four declared fields are served alike. *)
Theorem C4_create_payment_outcomes (db : Database) (body : PaymentBody.t)
    (uuid : string) (now : Z) :
  (find_by_id (PaymentBody.loan_id body) (loans db) = None ->
   run (create_payment (PaymentBody.validate body) uuid now) db
   = (db, Err (HTTPException 404 "Loan not found")))
  /\ (forall loan,
        find_by_id (PaymentBody.loan_id body) (loans db) = Some loan ->
        exists p db',
          run (create_payment (PaymentBody.validate body) uuid now) db
          = (db', Ok p)
          /\ loans db' = loans db
          /\ payments db' = payments db ++ [p]
          /\ Payment.loan_id p = PaymentBody.loan_id body
          /\ Payment.amount p = PaymentBody.amount body
          /\ Payment.payment_date p = PaymentBody.payment_date body
          /\ Payment.notes p = PaymentBody.notes body)
  /\ (forall body',
        PaymentBody.loan_id body' = PaymentBody.loan_id body ->
        PaymentBody.amount body' = PaymentBody.amount body ->
        PaymentBody.payment_date body' = PaymentBody.payment_date body ->
        PaymentBody.notes body' = PaymentBody.notes body ->
        run (create_payment (PaymentBody.validate body') uuid now) db
        = run (create_payment (PaymentBody.validate body) uuid now) db).
Proof.
  split; [| split].
  - intro Hnone. rewrite run_create_payment.
    cbn [PaymentBody.validate PaymentCreate.loan_id]. now rewrite Hnone.
  - intros loan Hfind.
    destruct (run_create_payment_found db body uuid now loan Hfind)
      as (p & db' & Hrun & Hloans & Hpayments & Hid & Hamount & Hdate & Hnotes & _).
    exists p, db'. repeat split; assumption.
  - intros body'. apply create_payment_ignores_split.
Qed.

(** C5, as the code has it: a payment whose body names the purpose
    [full_release], on a loan that is found, is recorded like any other
    payment: with the amount the caller supplied, as the same body
    without purpose and split would be. The loans are left as they were:
    the loan keeps its status and its principal amount. *)
Theorem C5_full_release_leaves_loan (db : Database) (body : PaymentBody.t)
    (uuid : string) (now : Z) (loan : Loan.t) :
  PaymentBody.transaction_type body = Some "full_release" ->
  find_by_id (PaymentBody.loan_id body) (loans db) = Some loan ->
  exists p db',
    run (create_payment (PaymentBody.validate body) uuid now) db = (db', Ok p)
    /\ loans db' = loans db
    /\ find_by_id (PaymentBody.loan_id body) (loans db') = Some loan
    /\ payments db' = payments db ++ [p]
    /\ Payment.amount p = PaymentBody.amount body
    /\ run (create_payment
              (PaymentBody.validate (PaymentBody.without_split body)) uuid now)
         db
       = (db', Ok p).
Proof.
  intros _ Hfind.
  destruct (run_create_payment_found db body uuid now loan Hfind)
    as (p & db' & Hrun & Hloans & Hpayments & _ & Hamount & _).
  exists p, db'. repeat split; try assumption.
  now rewrite Hloans.
Qed.

(** C6, as the code has it: a payment whose body names the purpose
    [interest], on a loan that is found, is recorded like any other
    payment: with its amount and without any split (the payment class has
    no [interest_paid] and no [principal_paid]), as the same body without
    purpose and split would be. The loans are left as they were: every
    field of the loan, the date of the last interest payment and the
    principal among them, is unchanged. *)
Theorem C6_interest_payment_leaves_loan (db : Database) (body : PaymentBody.t)
    (uuid : string) (now : Z) (loan : Loan.t) :
  PaymentBody.transaction_type body = Some "interest" ->
  find_by_id (PaymentBody.loan_id body) (loans db) = Some loan ->
  exists p db',
    run (create_payment (PaymentBody.validate body) uuid now) db = (db', Ok p)
    /\ loans db' = loans db
    /\ find_by_id (PaymentBody.loan_id body) (loans db') = Some loan
    /\ payments db' = payments db ++ [p]
    /\ Payment.amount p = PaymentBody.amount body
    /\ Payment.payment_date p = PaymentBody.payment_date body
    /\ run (create_payment
              (PaymentBody.validate (PaymentBody.without_split body)) uuid now)
         db
       = (db', Ok p).
Proof.
  intros _ Hfind.
  destruct (run_create_payment_found db body uuid now loan Hfind)
    as (p & db' & Hrun & Hloans & Hpayments & _ & Hamount & Hdate & _).
  exists p, db'. repeat split; try assumption.
  now rewrite Hloans.
Qed.

End Payments.

(** An instance of C4: a request for a loan the ledger does not hold, and
    a request of -5 on a loan that is closed. *)
Lemma C4_create_payment_outcomes_witness :
  run (create_payment (PaymentBody.validate (plain_payment "loan-404" 100))
         "payment-001" (days 31)) active_ledger
  = (active_ledger, Err (HTTPException 404 "Loan not found"))
  /\ exists p db',
       run (create_payment
              (PaymentBody.validate (sample_payment (-5) "interest" 0 0))
              "payment-001" (days 31)) closed_ledger = (db', Ok p)
       /\ loans db' = loans closed_ledger
       /\ payments db' = [p]
       /\ Payment.amount p = (-5)%float.
Proof.
  split.
  - apply (proj1 (C4_create_payment_outcomes active_ledger
                    (plain_payment "loan-404" 100) "payment-001" (days 31))).
    reflexivity.
  - destruct (proj1 (proj2 (C4_create_payment_outcomes closed_ledger
                              (sample_payment (-5) "interest" 0 0)
                              "payment-001" (days 31)))
                _ eq_refl)
      as (p & db' & Hrun & Hloans & Hpayments & _ & Hamount & _).
    exists p, db'. repeat split; assumption.
Defined.

(** Against C4 as stated: none of the three requests below fails. A
    payment on a closed loan, a payment of 1000 whose body names the
    purpose [both] with a split of 600 + 500, and a payment of -5 are each
    answered with the payment, which is appended to the ledger. *)
Lemma C4_counterexample :
  (exists p,
     run (create_payment
            (PaymentBody.validate (sample_payment 1000 "interest" 0 1000))
            "payment-001" (days 31)) closed_ledger
     = (add_payment p closed_ledger, Ok p))
  /\ (exists p,
        run (create_payment
               (PaymentBody.validate (sample_payment 1000 "both" 600 500))
               "payment-001" (days 31)) active_ledger
        = (add_payment p active_ledger, Ok p)
        /\ (600 + 500)%float = 1100%float
        /\ Payment.amount p = 1000%float)
  /\ (exists p,
        run (create_payment
               (PaymentBody.validate (sample_payment (-5) "interest" 0 (-5)))
               "payment-001" (days 31)) active_ledger
        = (add_payment p active_ledger, Ok p)
        /\ PrimFloat.ltb (Payment.amount p) 0 = true).
Proof.
  repeat split; eexists; repeat split; vm_compute; reflexivity.
Qed.

(** An instance of C5: a full release of 100 on the active sample loan. *)
Lemma C5_full_release_leaves_loan_witness :
  exists p db',
    run (create_payment
           (PaymentBody.validate (sample_payment 100 "full_release" 0 0))
           "payment-001" (days 31)) active_ledger = (db', Ok p)
    /\ loans db' = loans active_ledger
    /\ Payment.amount p = 100%float.
Proof.
  destruct (C5_full_release_leaves_loan active_ledger
              (sample_payment 100 "full_release" 0 0) "payment-001" (days 31)
              (sample_loan "loan-001" "A150" 2 "active" 0) eq_refl eq_refl)
    as (p & db' & Hrun & Hloans & _ & _ & Hamount & _).
  exists p, db'. repeat split; assumption.
Defined.

(** Against C5 as stated: after a full release of 100 on the active sample
    loan of 50000, the loan is still "active" with its principal amount of
    50000, and the one payment on record is the 100 the caller supplied:
    nothing of the principal is settled and the loan is not closed. *)
Lemma C5_counterexample :
  exists p db' loan,
    run (create_payment
           (PaymentBody.validate (sample_payment 100 "full_release" 0 0))
           "payment-001" (days 31)) active_ledger = (db', Ok p)
    /\ find_by_id "loan-001" (loans db') = Some loan
    /\ Loan.status loan = "active"
    /\ String.eqb (Loan.status loan) "closed" = false
    /\ Loan.principal_amount loan = 50000%float
    /\ map Payment.amount (payments db') = [100%float].
Proof.
  do 3 eexists. repeat split; vm_compute; reflexivity.
Qed.

(** An instance of C6: an interest payment of 500 on the active sample
    loan. *)
Lemma C6_interest_payment_leaves_loan_witness :
  exists p db',
    run (create_payment
           (PaymentBody.validate (sample_payment 500 "interest" 0 500))
           "payment-001" (days 31)) active_ledger = (db', Ok p)
    /\ loans db' = loans active_ledger
    /\ Payment.amount p = 500%float.
Proof.
  destruct (C6_interest_payment_leaves_loan active_ledger
              (sample_payment 500 "interest" 0 500) "payment-001" (days 31)
              (sample_loan "loan-001" "A150" 2 "active" 0) eq_refl eq_refl)
    as (p & db' & Hrun & Hloans & _ & _ & Hamount & _).
  exists p, db'. repeat split; assumption.
Defined.

(** Against C6 as stated: after an interest payment of 500 dated 30 days
    after the loan date, the loan's date of the last interest payment is
    still unset (the claim has it set to the payment date), and the loans
    are as they were before. *)
Lemma C6_counterexample :
  exists p db' loan,
    run (create_payment
           (PaymentBody.validate (sample_payment 500 "interest" 0 500))
           "payment-001" (days 31)) active_ledger = (db', Ok p)
    /\ Payment.amount p = 500%float
    /\ Payment.payment_date p = utc (days 30)
    /\ loans db' = loans active_ledger
    /\ find_by_id "loan-001" (loans db') = Some loan
    /\ Loan.last_interest_payment_date loan = None.
Proof.
  do 3 eexists. repeat split; vm_compute; reflexivity.
Qed.

(** ** Serial numbers *)

Section Serials.

(** C7, as the code has it: [generate_serial_number] keeps no count of its
    own; it reads the serial of the most recently created loan. Loans
    created one after another by [create_loan], on a ledger that holds no
    loan and with creation times that strictly increase, are answered
    with A150, A151, A152, ...: the first serial is 150 and each next one
    is the previous plus 1. *)
Theorem C7_sequential_creation_serials (calls : list Call) (db : Database) :
  loans db = [] ->
  StronglySorted Z.lt (map clock calls) ->
  serial 150 = "A150"
  /\ map issued (snd (run_all (map create_call calls) db))
     = map (fun i => Some (serial (150 + Z.of_nat i)))
           (seq 0 (List.length calls)).
Proof.
  intros Hempty Hclk. split; [reflexivity |].
  rewrite run_all_create_loan; [| rewrite Hempty; constructor | exact Hclk].
  now rewrite Hempty.
Qed.

(** C8, as the code has it: nothing keeps two calls in flight from reading
    the same latest loan. When the calls do not overlap (each one's loan
    is inserted before the next one's lookup), on a ledger whose loans are
    all older than the calls and with creation times that strictly
    increase, every call is answered and the serials received are
    pairwise distinct. *)
Theorem C8_distinct_without_overlap (calls : list Call) (db : Database) :
  Forall (fun l => Forall (fun c => created l < clock c) calls) (loans db) ->
  StronglySorted Z.lt (map clock calls) ->
  exists serials,
    map received
      (snd (run_schedule (serial_schedule 2 (List.length calls))
              (map create_call calls) db))
    = map Some serials
    /\ NoDup serials.
Proof.
  intros Hold Hclk.
  exists (map (fun i => serial (next_num (loans db) + Z.of_nat i))
            (seq 0 (List.length calls))).
  split; [| apply NoDup_serials].
  unfold serial_schedule.
  pose proof (run_serial_schedule calls [] db) as Hrun.
  cbn [List.length app] in Hrun. rewrite Hrun. cbn [snd].
  rewrite received_finished, (run_all_create_loan calls db Hold Hclk).
  now rewrite map_map.
Qed.

(** C10: when the serial of the most recently created loan has, after its
    first character, text that [int()] rejects, [generate_serial_number]
    answers "A150"; so the next loan is created with the serial A150,
    whatever serials the ledger already holds. *)
Theorem C10_malformed_serial_restarts_at_150 (db : Database) (l : Loan.t) :
  latest (loans db) = Some l ->
  is_ascii (Loan.serial_no l) = true ->
  int_of_str (slice_from_1 (Loan.serial_no l)) = None ->
  run generate_serial_number db = (db, Ok "A150")
  /\ forall c : Call,
       exists loan,
         run (create_call c) db = (add_loan loan db, Ok loan)
         /\ Loan.serial_no loan = "A150".
Proof.
  intros Hlatest _ Hint.
  assert (Hnext : next_num (loans db) = 150).
  { unfold next_num. rewrite Hlatest, Hint.
    now destruct (truthy (Loan.serial_no l)). }
  split.
  - now rewrite run_generate_serial_number, Hnext.
  - intro c. destruct (run_create_loan c db) as (loan & Hrun & Hserial & _).
    exists loan. split; [exact Hrun |]. now rewrite Hserial, Hnext.
Qed.

End Serials.

(** An instance of C7: three loans created at times 1, 2 and 3. *)
Lemma C7_sequential_creation_serials_witness :
  map issued
    (snd (run_all (map create_call [sample_call 1; sample_call 2; sample_call 3])
            Db.empty))
  = [Some "A150"; Some "A151"; Some "A152"].
Proof.
  apply (proj2 (C7_sequential_creation_serials
                  [sample_call 1; sample_call 2; sample_call 3] Db.empty
                  eq_refl
                  ltac:(repeat constructor))).
Defined.

(** Against C7 as stated: the allocator called twice in a row answers A150
    both times, since no loan was stored in between; and three loans
    created in a row while the clock steps back (times 10, 5, 7) get A150,
    A151 and A151 again. *)
Lemma C7_counterexample :
  run_all [generate_serial_number; generate_serial_number] Db.empty
  = (Db.empty, [Ok "A150"; Ok "A150"])
  /\ map issued
       (snd (run_all
               (map create_call [sample_call 10; sample_call 5; sample_call 7])
               Db.empty))
     = [Some "A150"; Some "A151"; Some "A151"].
Proof. split; vm_compute; reflexivity. Qed.

(** An instance of C8: three calls at times 1, 2 and 3 on the sample
    ledger, whose loan was created at time 0. *)
Lemma C8_distinct_without_overlap_witness :
  exists serials,
    map received
      (snd (run_schedule (serial_schedule 2 3)
              (map create_call [sample_call 1; sample_call 2; sample_call 3])
              active_ledger))
    = map Some serials
    /\ NoDup serials.
Proof.
  apply (C8_distinct_without_overlap
           [sample_call 1; sample_call 2; sample_call 3] active_ledger).
  - repeat constructor.
  - repeat constructor.
Defined.

(** Against C8 as stated: two calls in flight together, both looking up
    the latest loan before either inserts its own, both receive A150. *)
Lemma C8_counterexample :
  map received
    (snd (run_schedule [0; 1; 0; 1]%nat
            [create_call (sample_call 1); create_call (sample_call 2)]
            Db.empty))
  = [Some "A150"; Some "A150"].
Proof. vm_compute. reflexivity. Qed.

(** An instance of C10: the latest loan of the ledger carries "A15x", an
    older one carries A150, and the next loan is given A150 again. *)
Lemma C10_malformed_serial_restarts_at_150_witness :
  run generate_serial_number malformed_ledger = (malformed_ledger, Ok "A150")
  /\ exists loan,
       run (create_call (sample_call 3)) malformed_ledger
       = (add_loan loan malformed_ledger, Ok loan)
       /\ map Loan.serial_no (loans (add_loan loan malformed_ledger))
          = ["A150"; "A15x"; "A150"].
Proof.
  destruct (C10_malformed_serial_restarts_at_150 malformed_ledger
              (sample_loan "loan-002" "A15x" 2 "active" 2)
              eq_refl eq_refl eq_refl) as [Hgen Hcreate].
  split; [exact Hgen |].
  destruct (Hcreate (sample_call 3)) as (loan & Hrun & Hserial).
  exists loan. split; [exact Hrun |].
  cbn [add_loan loans malformed_ledger ledger_of map app sample_loan
       Loan.serial_no].
  now rewrite Hserial.
Defined.

(* ===================================================================== *)
(** * Further properties of the routes *)
(* ===================================================================== *)

Import Routes Samples.

Section Collections.
Context {A : Type}.

Lemma find_app (p : A -> bool) (xs ys : list A) :
  find p (xs ++ ys) = match find p xs with Some x => Some x | None => find p ys end.
Proof.
  induction xs as [| x xs IH]; [reflexivity |].
  cbn [app find]. now destruct (p x).
Qed.

Lemma delete_one_none (p : A -> bool) (docs : list A) :
  find p docs = None -> delete_one p docs = (docs, 0).
Proof.
  induction docs as [| d docs IH]; [reflexivity |].
  cbn [find delete_one]. destruct (p d); [discriminate |].
  intro H. now rewrite (IH H).
Qed.

Lemma delete_one_some (p : A -> bool) (docs : list A) (d : A) :
  find p docs = Some d ->
  exists before after,
    docs = before ++ d :: after
    /\ find p before = None
    /\ delete_one p docs = (before ++ after, 1).
Proof.
  induction docs as [| x docs IH]; [discriminate |].
  cbn [find delete_one]. destruct (p x) eqn:Hx.
  - intros [= ->]. now exists [], docs.
  - intro H. destruct (IH H) as (before & after & -> & Hnone & Hdel).
    exists (x :: before), after. cbn [app find]. rewrite Hx, Hdel. auto.
Qed.

Lemma firstn_snoc_below (n : nat) (xs : list A) (x : A) :
  (List.length xs < n)%nat -> firstn n (xs ++ [x]) = xs ++ [x].
Proof.
  intro H. apply firstn_all2. rewrite length_app. cbn. lia.
Qed.

Lemma firstn_snoc_full (n : nat) (xs : list A) (x : A) :
  (n <= List.length xs)%nat -> firstn n (xs ++ [x]) = firstn n xs.
Proof.
  intro H. rewrite firstn_app.
  replace (n - List.length xs)%nat with 0%nat by lia.
  cbn [firstn]. apply app_nil_r.
Qed.

Lemma In_firstn (n : nat) (xs : list A) (x : A) :
  In x (firstn n xs) -> In x xs.
Proof.
  intro H. rewrite <- (firstn_skipn n xs). apply in_or_app. now left.
Qed.

End Collections.

Lemma find_by_id_id (id : string) (ls : list Loan.t) (l : Loan.t) :
  find_by_id id ls = Some l -> Loan.id l = id.
Proof.
  intro H. apply find_some in H as [_ H]. now apply String.eqb_eq.
Qed.

Lemma find_by_id_absent (id : string) (ls : list Loan.t) :
  ~ In id (map Loan.id ls) -> find_by_id id ls = None.
Proof.
  intro H. unfold find_by_id.
  destruct (find _ ls) as [l |] eqn:Hfind; [| reflexivity].
  exfalso. apply H. apply find_some in Hfind as [Hin Heq].
  apply String.eqb_eq in Heq. rewrite <- Heq. now apply in_map.
Qed.

Section LoanRoutes.

(** X1: [generate_serial_number] drops the first character of the latest
    serial without looking at it. Whatever that character is, when the rest
    is the numeral of [k] (negative numbers included) the answer is "A"
    followed by [k + 1], and the database is left as it was. Stated for
    numbers that CPython converts whatever its version: [k] and [k + 1] of
    at most 4300 digits. *)
Theorem X1_next_serial_drops_first_character (db : Database) (l : Loan.t)
    (c : ascii) (k : Z) :
  latest (loans db) = Some l ->
  Loan.serial_no l = String c (str_of_int k) ->
  Z.abs k < 10 ^ int_max_str_digits ->
  Z.abs (k + 1) < 10 ^ int_max_str_digits ->
  run generate_serial_number db = (db, Ok (String "A" (str_of_int (k + 1)))).
Proof.
  intros Hlatest Hserial _ _.
  rewrite run_generate_serial_number. unfold next_num, serial.
  rewrite Hlatest, Hserial.
  cbn [truthy String.eqb negb slice_from_1].
  now rewrite int_of_str_of_int.
Qed.

Lemma new_items_data (uuid4 : nat -> string) (items : list ItemCreate.t) :
  forall first,
    map item_data (new_items uuid4 first items) = items
    /\ map Item.id (new_items uuid4 first items)
       = map uuid4 (seq first (List.length items)).
Proof.
  induction items as [| item items IH]; intro first; [now split |].
  cbn [new_items map List.length seq].
  destruct (IH (S first)) as [Hdata Hids]. rewrite Hdata, Hids.
  split; [| reflexivity]. f_equal. now destruct item.
Qed.

(** X3: the loan [create_loan] answers with holds the items of the request,
    in order and unchanged; the items carry the identifiers drawn first,
    in the order drawn, and the loan the one drawn after them. *)
Theorem X3_create_loan_keeps_items (loan_data : LoanCreate.t)
    (uuid4 : nat -> string) (now : Z) (db : Database) :
  exists loan db',
    run (create_loan loan_data uuid4 now) db = (db', Ok loan)
    /\ map item_data (Loan.items loan) = LoanCreate.items loan_data
    /\ map Item.id (Loan.items loan)
       = map uuid4 (seq 0 (List.length (LoanCreate.items loan_data)))
    /\ Loan.id loan = uuid4 (List.length (LoanCreate.items loan_data)).
Proof.
  do 2 eexists. split; [reflexivity |].
  cbn [Loan.items Loan.id].
  destruct (new_items_data uuid4 (LoanCreate.items loan_data) 0) as [Hdata Hids].
  repeat split; [exact Hdata | exact Hids |].
  f_equal. rewrite <- (length_map item_data), Hdata. reflexivity.
Qed.

(** X4: a loan just created is found again by [get_loan] under its
    identifier when no loan on record had that identifier; when one had,
    [get_loan] keeps answering with the older loan. *)
Theorem X4_create_then_get_loan (c : Call) (db : Database) :
  exists loan db',
    run (create_call c) db = (db', Ok loan)
    /\ (find_by_id (Loan.id loan) (loans db) = None ->
        get_loan (Loan.id loan) db' = (db', Ok loan))
    /\ (forall older,
          find_by_id (Loan.id loan) (loans db) = Some older ->
          get_loan (Loan.id loan) db' = (db', Ok older)).
Proof.
  destruct (run_create_loan c db) as (loan & Hrun & _).
  exists loan, (add_loan loan db). split; [exact Hrun |].
  unfold get_loan, find_by_id. cbn [add_loan loans]. rewrite find_app.
  split.
  - intro Hnone. unfold find_by_id in Hnone. rewrite Hnone.
    cbn [find]. now rewrite String.eqb_refl.
  - intros older Hsome. unfold find_by_id in Hsome. now rewrite Hsome.
Qed.

Lemma delete_loan_cases (loan_id : string) (db : Database) :
  (find_by_id loan_id (loans db) = None ->
   delete_loan loan_id db = (db, Err (HTTPException 404 "Loan not found")))
  /\ (forall loan,
        find_by_id loan_id (loans db) = Some loan ->
        exists before after,
          loans db = before ++ loan :: after
          /\ find_by_id loan_id before = None
          /\ delete_loan loan_id db
             = ({| loans := before ++ after; payments := payments db |},
                Ok "Loan deleted successfully")).
Proof.
  unfold delete_loan, find_by_id. split.
  - intro Hnone. rewrite (delete_one_none _ _ Hnone). now destruct db.
  - intros loan Hsome.
    destruct (delete_one_some _ _ _ Hsome) as (before & after & Heq & Hnone & Hdel).
    exists before, after. rewrite Hdel. auto.
Qed.

(** X5: [delete_loan] on an identifier no loan has answers 404 "Loan not
    found" and leaves the database as it was. On an identifier a loan has,
    it removes the first such loan and nothing else: the other loans keep
    their order and the payments, those of the deleted loan included, stay
    on record. *)
Theorem X5_delete_loan_outcomes (loan_id : string) (db : Database) :
  (find_by_id loan_id (loans db) = None ->
   delete_loan loan_id db = (db, Err (HTTPException 404 "Loan not found")))
  /\ (forall loan,
        find_by_id loan_id (loans db) = Some loan ->
        exists before after,
          loans db = before ++ loan :: after
          /\ find_by_id loan_id before = None
          /\ delete_loan loan_id db
             = ({| loans := before ++ after; payments := payments db |},
                Ok "Loan deleted successfully")).
Proof. exact (delete_loan_cases loan_id db). Qed.

(** X6: when the loans on record have pairwise distinct identifiers, a
    loan is gone once [delete_loan] has run on its identifier: [get_loan]
    then answers 404. *)
Theorem X6_deleted_loan_is_gone (loan_id : string) (db : Database) :
  NoDup (map Loan.id (loans db)) ->
  get_loan loan_id (fst (delete_loan loan_id db))
  = (fst (delete_loan loan_id db), Err (HTTPException 404 "Loan not found")).
Proof.
  intro Hnodup.
  assert (Hgone : find_by_id loan_id (loans (fst (delete_loan loan_id db))) = None).
  { destruct (find_by_id loan_id (loans db)) as [loan |] eqn:Hfind.
    - destruct (proj2 (delete_loan_cases loan_id db) loan Hfind)
        as (before & after & Heq & Hnone & Hdel).
      rewrite Hdel. cbn [fst loans].
      unfold find_by_id. rewrite find_app. fold (find_by_id loan_id before).
      rewrite Hnone. apply find_by_id_absent.
      rewrite Heq, map_app in Hnodup. cbn [map] in Hnodup.
      apply NoDup_remove_2 in Hnodup.
      rewrite (find_by_id_id _ _ _ Hfind) in Hnodup.
      intro Hin. apply Hnodup. apply in_or_app. now right.
    - rewrite (proj1 (delete_loan_cases loan_id db) Hfind). exact Hfind. }
  unfold get_loan. now rewrite Hgone.
Qed.

Lemma delete_one_snoc {A : Type} (p : A -> bool) (docs : list A) (d : A) :
  find p docs = None -> p d = true -> delete_one p (docs ++ [d]) = (docs, 1).
Proof.
  intros Hnone Hd. induction docs as [| x docs IH].
  - cbn [app delete_one]. now rewrite Hd.
  - cbn [app delete_one find] in *. destruct (p x); [discriminate |].
    now rewrite (IH Hnone).
Qed.

(** X7: creating a loan under a fresh identifier and deleting it again
    gives back the database as it was, and the next loan created is given
    the serial the deleted loan had. *)
Theorem X7_deleted_serial_is_issued_again (c1 c2 : Call) (db : Database) :
  exists loan1 loan2 db1 db3,
    run (create_call c1) db = (db1, Ok loan1)
    /\ (find_by_id (Loan.id loan1) (loans db) = None ->
        delete_loan (Loan.id loan1) db1 = (db, Ok "Loan deleted successfully")
        /\ run (create_call c2) db = (db3, Ok loan2)
        /\ Loan.serial_no loan2 = Loan.serial_no loan1).
Proof.
  destruct (run_create_loan c1 db) as (loan1 & Hrun1 & Hserial1 & _).
  destruct (run_create_loan c2 db) as (loan2 & Hrun2 & Hserial2 & _).
  exists loan1, loan2, (add_loan loan1 db), (add_loan loan2 db).
  split; [exact Hrun1 |]. intro Hfresh. repeat split.
  - unfold delete_loan. cbn [add_loan loans payments].
    rewrite (delete_one_snoc _ _ _ Hfresh (String.eqb_refl _)).
    now destruct db.
  - exact Hrun2.
  - now rewrite Hserial1, Hserial2.
Qed.

(** X8: [get_loans] with a status lists at most 1000 loans, each of them
    on record with that status, and all such loans when there are at most
    1000 of them. An empty status is no filter: the answer is the one
    given without a status, which is every loan on record when there are
    at most 1000. *)
Theorem X8_get_loans_filter (status : string) (db : Database) :
  (truthy status = true ->
   exists listed,
     get_loans (Some status) db = (db, Ok listed)
     /\ (List.length listed <= 1000)%nat
     /\ (forall l, In l listed -> In l (loans db) /\ Loan.status l = status)
     /\ ((List.length (filter (fun l => String.eqb (Loan.status l) status)
                         (loans db)) <= 1000)%nat ->
         forall l, In l (loans db) -> Loan.status l = status -> In l listed))
  /\ get_loans (Some "") db = get_loans None db
  /\ ((List.length (loans db) <= 1000)%nat ->
      get_loans None db = (db, Ok (loans db))).
Proof.
  split; [| split].
  - intro Htruthy. eexists. unfold get_loans. rewrite Htruthy.
    split; [reflexivity |]. unfold to_list.
    split; [apply firstn_le_length |]. split.
    + intros l Hin. apply In_firstn, filter_In in Hin as [Hin Hs].
      split; [exact Hin | now apply String.eqb_eq].
    + intros Hfew l Hin Hs. rewrite firstn_all2 by exact Hfew.
      apply filter_In. split; [exact Hin | now apply String.eqb_eq].
  - reflexivity.
  - intro Hfew. unfold get_loans, to_list. now rewrite firstn_all2.
Qed.

End LoanRoutes.

Section PaymentRoutes.

Variable pow : float -> float -> float.
Variable sum : list float -> float.

(** X9: a payment recorded for a loan that is found is stored, and
    [get_payments] lists it last as long as fewer than 1000 payments were
    on record; from 1000 on the listing is the one from before, so the new
    payment is stored but not listed. *)
Theorem X9_payment_listing_stops_at_1000 (db : Database)
    (payment_data : PaymentCreate.t) (uuid : string) (now : Z) (loan : Loan.t) :
  find_by_id (PaymentCreate.loan_id payment_data) (loans db) = Some loan ->
  exists p db',
    run (create_payment payment_data uuid now) db = (db', Ok p)
    /\ payments db' = payments db ++ [p]
    /\ ((List.length (payments db) < 1000)%nat ->
        get_payments db' = (db', Ok (payments db ++ [p])))
    /\ ((1000 <= List.length (payments db))%nat ->
        snd (get_payments db') = snd (get_payments db)).
Proof.
  intro Hfind. rewrite run_create_payment, Hfind.
  do 2 eexists. split; [reflexivity |]. split; [reflexivity |].
  unfold get_payments, to_list. cbn [add_payment payments snd]. split.
  - intro Hbelow. now rewrite firstn_snoc_below.
  - intro Hfull. now rewrite firstn_snoc_full.
Qed.

(** X10: [cash_in_hand] of the dashboard is the sum over the first 1000
    payments on record. A payment recorded while fewer than 1000 are on
    record adds its amount to the summed list; one recorded after that
    leaves [cash_in_hand] as it was. *)
Theorem X10_cash_in_hand_counts_first_1000 (db : Database)
    (customers : list Customer.t)
    (payment_data : PaymentCreate.t) (uuid : string) (now : Z) (loan : Loan.t) :
  find_by_id (PaymentCreate.loan_id payment_data) (loans db) = Some loan ->
  let db' := fst (run (create_payment payment_data uuid now) db) in
  ((List.length (payments db) < 1000)%nat ->
   DashboardStats.cash_in_hand (get_dashboard_stats sum db' customers)
   = sum (map Payment.amount (payments db)
          ++ [PaymentCreate.amount payment_data]))
  /\ ((1000 <= List.length (payments db))%nat ->
      DashboardStats.cash_in_hand (get_dashboard_stats sum db' customers)
      = DashboardStats.cash_in_hand (get_dashboard_stats sum db customers)).
Proof.
  intros Hfind db'. subst db'. rewrite run_create_payment, Hfind.
  cbn [fst get_dashboard_stats DashboardStats.cash_in_hand add_payment payments].
  unfold to_list. split.
  - intro Hbelow. rewrite firstn_snoc_below by exact Hbelow.
    now rewrite map_app.
  - intro Hfull. now rewrite firstn_snoc_full.
Qed.

(** X11: the dashboard never reports more than 1000 active loans. A loan
    just created counts as active: while fewer than 1000 active loans are
    on record the count goes up by one and the principal is added to the
    summed list; from 1000 on the count stays at 1000 and the total
    amount is the one from before. *)
Theorem X11_new_loan_counts_as_active (c : Call) (db : Database)
    (customers : list Customer.t) :
  let active := List.length (filter is_active (loans db)) in
  let db' := fst (run (create_call c) db) in
  (DashboardStats.total_active_loans (get_dashboard_stats sum db' customers)
   <= 1000)
  /\ ((active < 1000)%nat ->
      DashboardStats.total_active_loans (get_dashboard_stats sum db' customers)
      = DashboardStats.total_active_loans (get_dashboard_stats sum db customers) + 1
      /\ DashboardStats.total_loan_amount (get_dashboard_stats sum db' customers)
         = sum (map Loan.principal_amount (filter is_active (loans db))
                ++ [LoanCreate.principal_amount (fst (fst c))]))
  /\ ((1000 <= active)%nat ->
      DashboardStats.total_active_loans (get_dashboard_stats sum db' customers)
      = 1000
      /\ DashboardStats.total_loan_amount (get_dashboard_stats sum db' customers)
         = DashboardStats.total_loan_amount (get_dashboard_stats sum db customers)).
Proof.
  intros active db'. subst db'.
  destruct (run_create_loan c db) as (loan & Hrun & _).
  assert (Hloan : exists loan, run (create_call c) db = (add_loan loan db, Ok loan)
            /\ Loan.status loan = "active"
            /\ Loan.principal_amount loan = LoanCreate.principal_amount (fst (fst c))).
  { eexists. repeat split. }
  clear loan Hrun. destruct Hloan as (loan & Hrun & Hstatus & Hprincipal).
  rewrite Hrun.
  cbn [fst get_dashboard_stats DashboardStats.total_active_loans
       DashboardStats.total_loan_amount add_loan loans].
  fold is_active. rewrite filter_app. cbn [filter].
  replace (is_active loan) with true by (unfold is_active; now rewrite Hstatus).
  unfold to_list. fold active. split; [| split].
  - pose proof (firstn_le_length 1000 (filter is_active (loans db) ++ [loan])). lia.
  - intro Hbelow. rewrite firstn_snoc_below by exact Hbelow.
    rewrite firstn_all2 by (fold active; lia).
    rewrite length_app, map_app. cbn [List.length map]. rewrite Hprincipal.
    split; [lia | reflexivity].
  - intro Hfull. rewrite firstn_snoc_full by exact Hfull.
    split; [| reflexivity].
    rewrite length_firstn. fold active. lia.
Qed.

(** X12: recording a payment never changes what the interest route
    answers for any loan at any time: interest is computed on the loan's
    principal amount and loan date, which no payment touches. *)
Theorem X12_payments_never_change_interest (db : Database)
    (payment_data : PaymentCreate.t) (uuid : string) (now : Z)
    (loan_id : string) (as_of : Z) :
  snd (run (calculate_loan_interest pow loan_id as_of)
         (fst (run (create_payment payment_data uuid now) db)))
  = snd (run (calculate_loan_interest pow loan_id as_of) db).
Proof.
  rewrite !run_calculate_loan_interest, run_create_payment.
  now destruct (find_by_id (PaymentCreate.loan_id payment_data) (loans db)).
Qed.

End PaymentRoutes.

Section Sorting.
Context {A : Type} (key : A -> Z).

Lemma insert_desc_perm (x : A) (l : list A) :
  Permutation (insert_desc key x l) (x :: l).
Proof.
  induction l as [| y l IH]; [reflexivity |].
  cbn [insert_desc]. destruct (key y <=? key x); [reflexivity |].
  rewrite IH. apply perm_swap.
Qed.

Lemma sort_desc_perm (l : list A) : Permutation (sort_desc key l) l.
Proof.
  induction l as [| x l IH]; [reflexivity |].
  cbn [sort_desc fold_right]. fold (sort_desc key l).
  rewrite insert_desc_perm. now constructor.
Qed.

Lemma insert_desc_sorted (x : A) (l : list A) :
  StronglySorted (newer_first key) l -> StronglySorted (newer_first key) (insert_desc key x l).
Proof.
  induction 1 as [| y l Hl IH Hy]; [repeat constructor |].
  cbn [insert_desc]. destruct (Z.leb_spec (key y) (key x)) as [Hle | Hgt].
  - constructor; [now constructor |].
    constructor; [exact Hle |].
    eapply Forall_impl; [| exact Hy]. unfold newer_first. intros z Hz. lia.
  - constructor; [exact IH |].
    rewrite insert_desc_perm. constructor; [unfold newer_first; lia | exact Hy].
Qed.

Lemma sort_desc_sorted (l : list A) : StronglySorted (newer_first key) (sort_desc key l).
Proof.
  induction l as [| x l IH]; [constructor |].
  cbn [sort_desc fold_right]. now apply insert_desc_sorted.
Qed.

Lemma sorted_app (a b : list A) :
  StronglySorted (newer_first key) (a ++ b) ->
  StronglySorted (newer_first key) a
  /\ forall x y, In x a -> In y b -> newer_first key x y.
Proof.
  induction a as [| h a IH]; cbn [app]; intro H.
  - split; [constructor | contradiction].
  - apply StronglySorted_inv in H as [Hs Hh]. destruct (IH Hs) as [Ha Hab].
    apply Forall_app in Hh as [Hha Hhb]. split; [now constructor |].
    intros x y [<- | Hx] Hy.
    + rewrite Forall_forall in Hhb. now apply Hhb.
    + now apply Hab.
Qed.

(** The first [n] of the documents sorted newest first are the [n] newest. *)
Lemma newest_first (n : nat) (docs : list A) :
  let recent := firstn n (sort_desc key docs) in
  exists older,
    Permutation (recent ++ older) docs
    /\ List.length recent = Nat.min n (List.length docs)
    /\ StronglySorted (newer_first key) recent
    /\ forall x y, In x recent -> In y older -> key y <= key x.
Proof.
  intro recent. exists (skipn n (sort_desc key docs)). subst recent.
  rewrite firstn_skipn.
  pose proof (sort_desc_sorted docs) as Hs.
  rewrite <- (firstn_skipn n (sort_desc key docs)) in Hs.
  apply sorted_app in Hs as [Hrecent Holder].
  repeat split.
  - apply sort_desc_perm.
  - rewrite length_firstn. now rewrite (Permutation_length (sort_desc_perm docs)).
  - exact Hrecent.
  - exact Holder.
Qed.

End Sorting.

(** X13: [recent_loans] of the dashboard holds the five newest loans (all
    of them when there are fewer), newest first: the loans left out are
    no newer than any loan listed. The same holds for [recent_payments]. *)
Theorem X13_recent_lists_hold_the_newest (sum : list float -> float)
    (db : Database) (customers : list Customer.t) :
  let stats := get_dashboard_stats sum db customers in
  (exists older,
     Permutation (DashboardStats.recent_loans stats ++ older) (loans db)
     /\ List.length (DashboardStats.recent_loans stats)
        = Nat.min 5 (List.length (loans db))
     /\ StronglySorted (newer_first created)
          (DashboardStats.recent_loans stats)
     /\ forall x y,
          In x (DashboardStats.recent_loans stats) -> In y older ->
          created y <= created x)
  /\ (exists older,
        Permutation (DashboardStats.recent_payments stats ++ older) (payments db)
        /\ List.length (DashboardStats.recent_payments stats)
           = Nat.min 5 (List.length (payments db))
        /\ StronglySorted (newer_first payment_created)
             (DashboardStats.recent_payments stats)
        /\ forall x y,
             In x (DashboardStats.recent_payments stats) -> In y older ->
             payment_created y <= payment_created x).
Proof.
  cbn [get_dashboard_stats DashboardStats.recent_loans
       DashboardStats.recent_payments].
  unfold to_list. rewrite !firstn_firstn. cbn [Nat.min].
  split.
  - exact (newest_first created 5 (loans db)).
  - exact (newest_first payment_created 5 (payments db)).
Qed.

Section Customers.

Lemma lstrip_blank (s : string) :
  PyText.all_isspace s = true -> PyText.lstrip s = "".
Proof.
  induction s as [| c s IH]; [reflexivity |].
  cbn [PyText.all_isspace PyText.lstrip].
  destruct (PyText.isspace c); [exact IH | discriminate].
Qed.

Lemma lstrip_text (s : string) :
  PyText.all_isspace s = false ->
  exists c rest, PyText.lstrip s = String c rest /\ PyText.isspace c = false.
Proof.
  induction s as [| c s IH]; [discriminate |].
  cbn [PyText.all_isspace PyText.lstrip].
  destruct (PyText.isspace c) eqn:Hc; [exact IH |].
  intros _. now exists c, s.
Qed.

Lemma rstrip_text (c : ascii) (rest : string) :
  PyText.isspace c = false -> truthy (PyText.rstrip (String c rest)) = true.
Proof.
  intro Hc. cbn [PyText.rstrip]. rewrite Hc.
  now destruct (PyText.rstrip rest).
Qed.

Lemma truthy_strip (s : string) :
  truthy (PyText.strip s) = negb (PyText.all_isspace s).
Proof.
  unfold PyText.strip. destruct (PyText.all_isspace s) eqn:Hs.
  - now rewrite (lstrip_blank s Hs).
  - destruct (lstrip_text s Hs) as (c & rest & -> & Hc).
    now rewrite (rstrip_text c rest Hc).
Qed.

(** X14: [create_customer] checks name, phone, address and ID proof in
    this order; the first of them that is empty or only whitespace decides
    the answer, 400 with that field's message, and nothing is stored. When
    none is, the customer is stored with the four fields as given (not
    stripped). Stated for ASCII text. *)
Theorem X14_create_customer_checks_fields_in_turn
    (customer_data : CustomerCreate.t) (uuid : string) (now : Z)
    (customers : list Customer.t) :
  is_ascii (CustomerCreate.name customer_data) = true ->
  is_ascii (CustomerCreate.phone customer_data) = true ->
  is_ascii (CustomerCreate.address customer_data) = true ->
  is_ascii (CustomerCreate.id_proof customer_data) = true ->
  let blank := PyText.all_isspace in
  let rejected detail :=
    create_customer customer_data uuid now customers
    = (customers, Err (HTTPException 400 detail)) in
  (blank (CustomerCreate.name customer_data) = true ->
   rejected "Customer name is required")
  /\ (blank (CustomerCreate.name customer_data) = false ->
      blank (CustomerCreate.phone customer_data) = true ->
      rejected "Phone number is required")
  /\ (blank (CustomerCreate.name customer_data) = false ->
      blank (CustomerCreate.phone customer_data) = false ->
      blank (CustomerCreate.address customer_data) = true ->
      rejected "Address is required")
  /\ (blank (CustomerCreate.name customer_data) = false ->
      blank (CustomerCreate.phone customer_data) = false ->
      blank (CustomerCreate.address customer_data) = false ->
      blank (CustomerCreate.id_proof customer_data) = true ->
      rejected "ID proof is required")
  /\ (blank (CustomerCreate.name customer_data) = false ->
      blank (CustomerCreate.phone customer_data) = false ->
      blank (CustomerCreate.address customer_data) = false ->
      blank (CustomerCreate.id_proof customer_data) = false ->
      exists c,
        create_customer customer_data uuid now customers
        = (customers ++ [c], Ok c)
        /\ Customer.id c = uuid
        /\ Customer.name c = CustomerCreate.name customer_data
        /\ Customer.phone c = CustomerCreate.phone customer_data
        /\ Customer.address c = CustomerCreate.address customer_data
        /\ Customer.id_proof c = CustomerCreate.id_proof customer_data).
Proof.
  intros _ _ _ _ blank rejected. subst blank rejected.
  unfold create_customer. rewrite !truthy_strip, !negb_involutive.
  repeat split.
  - now intros ->.
  - now intros -> ->.
  - now intros -> -> ->.
  - now intros -> -> -> ->.
  - intros -> -> -> ->. eexists. repeat split.
Qed.


End Customers.

Section AccrualEdges.

Variable pow : float -> float -> float.

(** X16: for a loan whose loan date carries no UTC offset the interest
    route raises [TypeError]: the date is subtracted from the offset-aware
    clock reading. The database is left as it was. *)
Theorem X16_naive_loan_date_raises (db : Database) (loan_id : string)
    (now : Z) (loan : Loan.t) :
  find_by_id loan_id (loans db) = Some loan ->
  tzaware (Loan.loan_date loan) = false ->
  run (calculate_loan_interest pow loan_id now) db = (db, Err TypeError).
Proof.
  intros Hfind Hnaive. rewrite run_calculate_loan_interest, Hfind.
  unfold calculate_interest, datetime_sub. cbn [utc tzaware]. now rewrite Hnaive.
Qed.

(** X17: the regime turns on whole days, a started day not counting: as
    long as fewer than 366 times 24 hours lie between the start date and
    the as-of date the result is "simple"; from then on it is never
    "simple" (it is "compound", or [OverflowError] when the power is
    infinite). *)
Theorem X17_simple_until_366_full_days (principal : float)
    (start_date as_of : datetime) (now : Z) :
  tzaware as_of = tzaware start_date ->
  (instant as_of < instant start_date + days 366 ->
   exists r,
     calculate_interest pow principal start_date (Some as_of) now = Ok r
     /\ InterestInfo.interest_type r = "simple")
  /\ (instant start_date + days 366 <= instant as_of ->
      calculate_interest pow principal start_date (Some as_of) now
      = Err OverflowError
      \/ exists r,
           calculate_interest pow principal start_date (Some as_of) now = Ok r
           /\ InterestInfo.interest_type r = "compound").
Proof.
  intro Haware. unfold days. split.
  - intro Hlt.
    assert (Hd : timedelta_days (instant as_of - instant start_date) <= 365).
    { unfold timedelta_days.
      enough (H : (instant as_of - instant start_date) / microseconds_per_day < 366)
        by lia.
      apply Z.div_lt_upper_bound; [reflexivity | lia]. }
    eexists. split; [now apply calculate_interest_simple | reflexivity].
  - intro Hge.
    assert (Hd : 365 < timedelta_days (instant as_of - instant start_date)).
    { unfold timedelta_days.
      enough (H : 366 <= (instant as_of - instant start_date) / microseconds_per_day) by lia.
      apply Z.div_le_lower_bound; [reflexivity | lia]. }
    destruct (PrimFloat.is_infinity
                (pow (1 + 0.24)%float
                   (int_truediv (timedelta_days (instant as_of - instant start_date)) 365)))
      eqn:Hinf.
    + left. unfold calculate_interest, datetime_sub.
      rewrite Haware, Bool.eqb_reflx. unfold Ok at 1. cbv beta iota.
      destruct (Z.leb_spec (timedelta_days (instant as_of - instant start_date)) 365);
        [lia |].
      unfold float_pow. now rewrite Hinf.
    + right. eexists. split; [now apply calculate_interest_compound | reflexivity].
Qed.

End AccrualEdges.

(** X18: on every ledger, two [create_loan] calls that both look up the
    latest loan before either inserts its own are answered with the same
    serial, the one [generate_serial_number] gives on that ledger, and
    both loans are stored. *)
Theorem X18_overlapping_calls_share_a_serial (c1 c2 : Call) (db : Database) :
  exists s loan1 loan2,
    run generate_serial_number db = (db, Ok s)
    /\ run_schedule [0; 1; 0; 1]%nat [create_call c1; create_call c2] db
       = ({| loans := (loans db ++ [loan1]) ++ [loan2]; payments := payments db |},
          [Return loan1; Return loan2])
    /\ Loan.serial_no loan1 = s
    /\ Loan.serial_no loan2 = s.
Proof. do 3 eexists. repeat split. Qed.

(** ** Instances *)

(** Instances of X1: after "B7" comes A8, after "150" comes A51, after
    "A-5" comes A-4. *)
Lemma X1_next_serial_drops_first_character_witness :
  run generate_serial_number (ledger_of [sample_loan "loan-001" "B7" 2 "active" 1])
  = (ledger_of [sample_loan "loan-001" "B7" 2 "active" 1], Ok "A8")
  /\ run generate_serial_number
       (ledger_of [sample_loan "loan-001" "150" 2 "active" 1])
     = (ledger_of [sample_loan "loan-001" "150" 2 "active" 1], Ok "A51")
  /\ run generate_serial_number
       (ledger_of [sample_loan "loan-001" "A-5" 2 "active" 1])
     = (ledger_of [sample_loan "loan-001" "A-5" 2 "active" 1], Ok "A-4").
Proof.
  split; [| split].
  - apply (X1_next_serial_drops_first_character
             (ledger_of [sample_loan "loan-001" "B7" 2 "active" 1])
             (sample_loan "loan-001" "B7" 2 "active" 1) "B" 7
             eq_refl eq_refl);
      vm_compute; reflexivity.
  - apply (X1_next_serial_drops_first_character
             (ledger_of [sample_loan "loan-001" "150" 2 "active" 1])
             (sample_loan "loan-001" "150" 2 "active" 1) "1" 50
             eq_refl eq_refl);
      vm_compute; reflexivity.
  - apply (X1_next_serial_drops_first_character
             (ledger_of [sample_loan "loan-001" "A-5" 2 "active" 1])
             (sample_loan "loan-001" "A-5" 2 "active" 1) "A" (-5)
             eq_refl eq_refl);
      vm_compute; reflexivity.
Defined.

(** An instance of X4: a loan created on the sample ledger. *)
Lemma X4_create_then_get_loan_witness :
  exists loan db',
    run (create_call (sample_call 3)) active_ledger = (db', Ok loan)
    /\ get_loan (Loan.id loan) db' = (db', Ok loan).
Proof.
  destruct (X4_create_then_get_loan (sample_call 3) active_ledger)
    as (loan & db' & Hrun & Hfresh & _).
  exists loan, db'. split; [exact Hrun |]. apply Hfresh.
  vm_compute in Hrun. injection Hrun as _ <-. reflexivity.
Defined.

(** Instances of X5: an identifier no loan has, and the first of two loans. *)
Lemma X5_delete_loan_outcomes_witness :
  delete_loan "loan-404" two_loan_ledger
  = (two_loan_ledger, Err (HTTPException 404 "Loan not found"))
  /\ exists before after,
       loans two_loan_ledger
       = before ++ sample_loan "loan-001" "A150" 2 "closed" 1 :: after
       /\ find_by_id "loan-001" before = None
       /\ delete_loan "loan-001" two_loan_ledger
          = ({| loans := before ++ after; payments := payments two_loan_ledger |},
             Ok "Loan deleted successfully").
Proof.
  split.
  - apply (proj1 (X5_delete_loan_outcomes "loan-404" two_loan_ledger)).
    reflexivity.
  - apply (proj2 (X5_delete_loan_outcomes "loan-001" two_loan_ledger)).
    reflexivity.
Defined.

(** An instance of X6: the first of the two sample loans. *)
Lemma X6_deleted_loan_is_gone_witness :
  get_loan "loan-001" (fst (delete_loan "loan-001" two_loan_ledger))
  = (fst (delete_loan "loan-001" two_loan_ledger),
     Err (HTTPException 404 "Loan not found")).
Proof.
  apply X6_deleted_loan_is_gone.
  constructor; [| constructor; [intros [] | constructor]].
  intros [H | []]. discriminate H.
Defined.

(** An instance of X7: two calls on the sample ledger. *)
Lemma X7_deleted_serial_is_issued_again_witness :
  exists loan1 loan2 db1 db3,
    run (create_call (sample_call 3)) active_ledger = (db1, Ok loan1)
    /\ delete_loan (Loan.id loan1) db1
       = (active_ledger, Ok "Loan deleted successfully")
    /\ run (create_call (sample_call 4)) active_ledger = (db3, Ok loan2)
    /\ Loan.serial_no loan2 = Loan.serial_no loan1.
Proof.
  destruct (X7_deleted_serial_is_issued_again (sample_call 3) (sample_call 4)
              active_ledger)
    as (loan1 & loan2 & db1 & db3 & Hrun & Hfresh).
  exists loan1, loan2, db1, db3. split; [exact Hrun |]. apply Hfresh.
  vm_compute in Hrun. injection Hrun as _ <-. reflexivity.
Defined.

(** An instance of X8: the active loans of the two sample loans. *)
Lemma X8_get_loans_filter_witness :
  exists listed,
    get_loans (Some "active") two_loan_ledger = (two_loan_ledger, Ok listed)
    /\ (List.length listed <= 1000)%nat
    /\ (forall l,
          In l listed -> In l (loans two_loan_ledger) /\ Loan.status l = "active")
    /\ ((List.length (filter (fun l => String.eqb (Loan.status l) "active")
                        (loans two_loan_ledger)) <= 1000)%nat ->
        forall l,
          In l (loans two_loan_ledger) -> Loan.status l = "active" -> In l listed).
Proof.
  apply (proj1 (X8_get_loans_filter "active" two_loan_ledger)). reflexivity.
Defined.

(** An instance of X9: the payment after the thousandth is stored and not
    listed. *)
Lemma X9_payment_listing_stops_at_1000_witness :
  exists p db',
    run (create_payment
           (PaymentBody.validate (sample_payment 500 "interest" 0 500))
           "payment-1001" (days 31)) thousand_payments = (db', Ok p)
    /\ In p (payments db')
    /\ snd (get_payments db') = snd (get_payments thousand_payments).
Proof.
  destruct (X9_payment_listing_stops_at_1000 thousand_payments
              (PaymentBody.validate (sample_payment 500 "interest" 0 500))
              "payment-1001" (days 31)
              (sample_loan "loan-001" "A150" 2 "active" 0) eq_refl)
    as (p & db' & Hrun & Hstored & _ & Hfull).
  exists p, db'. split; [exact Hrun |]. split.
  - rewrite Hstored. apply in_or_app. right. now left.
  - apply Hfull. apply Nat.leb_le. vm_compute. reflexivity.
Defined.

(** An instance of X10: the same payment leaves cash in hand as it was. *)
Lemma X10_cash_in_hand_counts_first_1000_witness :
  DashboardStats.cash_in_hand
    (get_dashboard_stats sum_left
       (fst (run (create_payment
                    (PaymentBody.validate (sample_payment 500 "interest" 0 500))
                    "payment-1001" (days 31)) thousand_payments)) [])
  = DashboardStats.cash_in_hand
      (get_dashboard_stats sum_left thousand_payments []).
Proof.
  apply (proj2 (X10_cash_in_hand_counts_first_1000 sum_left thousand_payments []
                  (PaymentBody.validate (sample_payment 500 "interest" 0 500))
              "payment-1001" (days 31)
                  (sample_loan "loan-001" "A150" 2 "active" 0) eq_refl)).
  apply Nat.leb_le. vm_compute. reflexivity.
Defined.

(** An instance of X11: a loan created on the sample ledger. *)
Lemma X11_new_loan_counts_as_active_witness :
  DashboardStats.total_active_loans
    (get_dashboard_stats sum_left
       (fst (run (create_call (sample_call 3)) active_ledger)) [])
  = DashboardStats.total_active_loans
      (get_dashboard_stats sum_left active_ledger []) + 1.
Proof.
  apply (proj1 (proj2 (X11_new_loan_counts_as_active sum_left (sample_call 3)
                         active_ledger []))).
  apply Nat.leb_le. reflexivity.
Defined.

(** Instances of X14: a name of two spaces, and a complete request. *)
Lemma X14_create_customer_checks_fields_in_turn_witness :
  create_customer (sample_customer "  ") "customer-009" 5 []
  = ([], Err (HTTPException 400 "Customer name is required"))
  /\ exists c,
       create_customer (sample_customer " Rajesh Kumar") "customer-009" 5 []
       = ([c], Ok c)
       /\ Customer.name c = " Rajesh Kumar".
Proof.
  split.
  - apply (proj1 (X14_create_customer_checks_fields_in_turn
                    (sample_customer "  ") "customer-009" 5 []
                    eq_refl eq_refl eq_refl eq_refl)).
    reflexivity.
  - destruct (proj2 (proj2 (proj2 (proj2
                (X14_create_customer_checks_fields_in_turn
                   (sample_customer " Rajesh Kumar") "customer-009" 5 []
                   eq_refl eq_refl eq_refl eq_refl))))
                eq_refl eq_refl eq_refl eq_refl)
      as (c & Hrun & _ & Hname & _).
    exists c. split; [exact Hrun | exact Hname].
Defined.


(** An instance of X16: the loan whose loan date has no offset. *)
Lemma X16_naive_loan_date_raises_witness :
  run (calculate_loan_interest pow_whole "loan-009" (days 30))
    (ledger_of [naive_loan])
  = (ledger_of [naive_loan], Err TypeError).
Proof.
  apply (X16_naive_loan_date_raises pow_whole (ledger_of [naive_loan])
           "loan-009" (days 30) naive_loan eq_refl eq_refl).
Defined.

(** Instances of X17: one microsecond short of 366 days, and 730 days. *)
Lemma X17_simple_until_366_full_days_witness :
  (exists r,
     calculate_interest pow_whole 50000 (utc 0) (Some (utc (days 366 - 1))) 0
     = Ok r
     /\ InterestInfo.interest_type r = "simple")
  /\ (calculate_interest pow_whole 50000 (utc 0) (Some (utc (days 730))) 0
      = Err OverflowError
      \/ exists r,
           calculate_interest pow_whole 50000 (utc 0) (Some (utc (days 730))) 0
           = Ok r
           /\ InterestInfo.interest_type r = "compound").
Proof.
  split.
  - apply (proj1 (X17_simple_until_366_full_days pow_whole 50000 (utc 0)
                    (utc (days 366 - 1)) 0 eq_refl)).
    reflexivity.
  - apply (proj2 (X17_simple_until_366_full_days pow_whole 50000 (utc 0)
                    (utc (days 730)) 0 eq_refl)).
    vm_compute. discriminate.
Defined.
